(** * creodias_finder.query: URL construction and paginated retrieval

    A shallow embedding of [creodias_finder/query.py].  Python values are
    a small tagged universe, exceptions are a sum type carried by [result],
    [str] is [string] (each character read as a code point below 256),
    dictionaries are [gmap], and the HTTP transport is a state-passing
    function over an abstract world, the run recording the URLs it
    requests.  The decoded JSON bodies are typed by the wire contract, and
    the [print(url)] of [query], which only writes to standard output, is
    left out. *)

From Stdlib Require Import ZArith Bool List Ascii String Lia.
From stdpp Require Import base gmap strings list sorting pretty.

Open Scope string_scope.
Open Scope list_scope.
Open Scope Z_scope.

(** ** Python runtime fragments used by the module *)

Module Py.

(** [datetime.datetime].  The calendar date is held as its proleptic
    Gregorian day number ([toordinal()]), the form on which
    [datetime.__add__] does its arithmetic; [tzinfo] is the UTC offset in
    minutes of an aware value. *)
Record datetime := mk_datetime {
  ordinal : Z;
  hour : Z;
  minute : Z;
  second : Z;
  microsecond : Z;
  tzinfo : option Z
}.

Definition MAXORDINAL : Z := 3652059.

Definition valid_datetime (d : datetime) : Prop :=
  1 <= ordinal d <= MAXORDINAL /\ 0 <= hour d < 24 /\ 0 <= minute d < 60 /\
  0 <= second d < 60 /\ 0 <= microsecond d < 1000000.

(** [datetime.timedelta], normalised as its constructor does. *)
Record timedelta := mk_timedelta {
  td_days : Z;
  td_seconds : Z;
  td_microseconds : Z
}.

Definition timedelta_new (days hours minutes seconds microseconds : Z) : timedelta :=
  let s := hours * 3600 + minutes * 60 + seconds + microseconds / 1000000 in
  {| td_days := days + s / 86400;
     td_seconds := s mod 86400;
     td_microseconds := microseconds mod 1000000 |}.

Definition timedelta_add (a b : timedelta) : timedelta :=
  timedelta_new (td_days a + td_days b) 0 0 (td_seconds a + td_seconds b)
                (td_microseconds a + td_microseconds b).

#[local] Set Warnings "-register-all".
Inductive pyval :=
| PyNone
| PyInt (z : Z)
| PyStr (s : string)
| PyDatetime (d : datetime)
| PyList (l : list pyval)
| PyTuple (l : list pyval).

(** [bool(v)] *)
Definition truthy (v : pyval) : bool :=
  match v with
  | PyNone => false
  | PyInt z => negb (z =? 0)
  | PyStr s => negb (String.eqb s "")
  | PyDatetime _ => true
  | PyList l | PyTuple l => match l with [] => false | _ => true end
  end.

Inductive exn :=
| ValueError (msg : string)
| TypeError (msg : string)
| OverflowError (msg : string)
| HTTPError (status : Z)
| RequestError (message errors : pyval).

Inductive result (A : Type) :=
| Ok (a : A)
| Raise (e : exn).
Arguments Ok {A} a.
Arguments Raise {A} e.

Definition bind {A B} (m : result A) (k : A -> result B) : result B :=
  match m with
  | Ok a => k a
  | Raise e => Raise e
  end.

(** [datetime.__add__(self, other: timedelta)] *)
Definition datetime_add (self : datetime) (other : timedelta) : result datetime :=
  let delta := timedelta_add
                 (timedelta_new (ordinal self) (hour self) (minute self)
                                (second self) (microsecond self))
                 other in
  let hour := td_seconds delta / 3600 in
  let rem := td_seconds delta mod 3600 in
  let minute := rem / 60 in
  let second := rem mod 60 in
  if (0 <? td_days delta) && (td_days delta <=? MAXORDINAL)
  then Ok {| ordinal := td_days delta; hour := hour; minute := minute;
             second := second; microsecond := td_microseconds delta;
             tzinfo := tzinfo self |}
  else Raise (OverflowError "date value out of range").

(** [str.isspace] on one character (code points below 256). *)
Definition isspace (c : ascii) : bool :=
  let n := N_of_ascii c in
  ((9 <=? n) && (n <=? 13) || (28 <=? n) && (n <=? 32) ||
   (n =? 133) || (n =? 160))%N.

Fixpoint lstrip (s : string) : string :=
  match s with
  | String c rest => if isspace c then lstrip rest else s
  | EmptyString => EmptyString
  end.

Fixpoint rstrip (s : string) : string :=
  match s with
  | String c rest =>
      let rest' := rstrip rest in
      if isspace c && String.eqb rest' "" then "" else String c rest'
  | EmptyString => EmptyString
  end.

(** [s.strip()] *)
Definition strip (s : string) : string := rstrip (lstrip s).

(** [s.startswith(p)] and [s.endswith(p)] *)
Definition startswith (s p : string) : bool := String.prefix p s.

Definition endswith (s p : string) : bool :=
  let n := String.length s in
  let m := String.length p in
  (m <=? n)%nat && String.eqb (substring (n - m) m s) p.

(** [s[i]] for an index in range: the one-character string. *)
Definition item (s : string) (i : nat) : string := substring i 1 s.

(** [s.replace(old, new, count)] for a non-empty [old]; [count = None] is
    the default (every occurrence).  [skip] counts the characters of a
    matched [old] still to be dropped. *)
Fixpoint replace_from (old new : string) (count : option nat) (skip : nat)
         (s : string) : string :=
  match s with
  | EmptyString => EmptyString
  | String c rest =>
      match skip with
      | S k => replace_from old new count k rest
      | O =>
          let allowed := match count with Some O => false | _ => true end in
          if allowed && String.prefix old s
          then new +:+ replace_from old new (Nat.pred <$> count)
                                    (String.length old - 1) rest
          else String c (replace_from old new count 0 rest)
      end
  end.

Definition replace (s old new : string) (count : option nat) : string :=
  replace_from old new count 0 s.

(** ["".join(parts)] *)
Definition join (parts : list string) : string :=
  fold_right String.append "" parts.

(** [re.MULTILINE] *)
Definition re_M : nat := 8.

(** [re.sub(pattern, repl, string, count)] for a pattern matching exactly
    one character, those satisfying [p]; [repl] is the expanded
    replacement template and [count = 0] means no limit. *)
Fixpoint sub_upto (p : ascii -> bool) (repl : string) (limit : option nat)
         (s : string) : string :=
  match s with
  | EmptyString => EmptyString
  | String c rest =>
      if p c then
        match limit with
        | None => repl +:+ sub_upto p repl None rest
        | Some O => s
        | Some (S k) => repl +:+ sub_upto p repl (Some k) rest
        end
      else String c (sub_upto p repl limit rest)
  end.

Definition re_sub_char (p : ascii -> bool) (repl s : string) (count : nat) : string :=
  sub_upto p repl (if (count =? 0)%nat then None else Some count) s.

(** An f-string: literal text and replacement fields holding an integer
    literal. *)
Inductive fpart :=
| FText (s : string)
| FExpr (z : Z).

Definition fstring (parts : list fpart) : string :=
  fold_right (fun p acc =>
                match p with
                | FText s => s +:+ acc
                | FExpr z => pretty z +:+ acc
                end) "" parts.

End Py.
Export Py.

#[global] Instance result_bind : MBind result := fun A B k m => bind m k.
#[global] Instance result_ret : MRet result := fun A a => Ok a.

(** ** Regular expressions (the fragment of [re] the module uses) *)

Module Re.

Inductive class_item :=
| CRange (lo hi : ascii)     (* lo-hi *)
| CEsc (c : ascii).          (* \c *)

Inductive regex :=
| Lit (c : ascii)                    (* c *)
| Esc (c : ascii)                    (* \c, a quoted punctuation character *)
| Class (items : list class_item)    (* [...] *)
| Empty                              (* an empty alternative *)
| Seq (r1 r2 : regex)                (* r1r2 *)
| Alt (r1 r2 : regex)                (* r1|r2 *)
| Group (r : regex)                  (* (r) *)
| Opt (r : regex)                    (* r? *)
| Plus (r : regex)                   (* r+ *)
| Repeat (r : regex) (n : nat).      (* r{n} *)

(** A pattern anchored as [^body$]. *)
Record pattern := Anchored { body : regex }.

Definition item_source (i : class_item) : string :=
  match i with
  | CRange lo hi => String lo (String "-" (String hi ""))
  | CEsc c => String "\" (String c "")
  end.

(** The pattern text a regex is compiled from.  An alternation is
    written directly inside a group, as in the patterns below, so the
    text needs no further brackets. *)
Fixpoint regex_source (r : regex) : string :=
  match r with
  | Lit c => String c ""
  | Esc c => String "\" (String c "")
  | Class items => "[" +:+ join (map item_source items) +:+ "]"
  | Empty => ""
  | Seq r1 r2 => regex_source r1 +:+ regex_source r2
  | Alt r1 r2 => regex_source r1 +:+ "|" +:+ regex_source r2
  | Group r => "(" +:+ regex_source r +:+ ")"
  | Opt r => regex_source r +:+ "?"
  | Plus r => regex_source r +:+ "+"
  | Repeat r n => regex_source r +:+ "{" +:+ pretty n +:+ "}"
  end.

Definition source (p : pattern) : string := "^" +:+ regex_source (body p) +:+ "$".

Definition in_item (c : ascii) (i : class_item) : bool :=
  match i with
  | CRange lo hi => ((N_of_ascii lo <=? N_of_ascii c) && (N_of_ascii c <=? N_of_ascii hi))%N
  | CEsc e => Ascii.eqb c e
  end.

Definition eat (p : ascii -> bool) (s : string) : list string :=
  match s with
  | String c rest => if p c then [rest] else []
  | EmptyString => []
  end.

(** Repetition: the ends reached after one or more rounds of [step]. *)
Fixpoint rounds (fuel : nat) (step : list string -> list string)
         (cur : list string) : list string :=
  match fuel with
  | O => []
  | S fuel' =>
      match step cur with
      | [] => []
      | next => next ++ rounds fuel' step next
      end
  end.

(** [ends r s]: every suffix of [s] left over after [r] has matched a
    prefix of [s], as the backtracking matcher can reach them. *)
Fixpoint ends (r : regex) (s : string) : list string :=
  match r with
  | Lit c | Esc c => eat (Ascii.eqb c) s
  | Class items => eat (fun c => existsb (in_item c) items) s
  | Empty => [s]
  | Seq r1 r2 => flat_map (ends r2) (ends r1 s)
  | Alt r1 r2 => ends r1 s ++ ends r2 s
  | Group r => ends r s
  | Opt r => ends r s ++ [s]
  | Plus r => rounds (S (String.length s)) (flat_map (ends r)) [s]
  | Repeat r n => Nat.iter n (flat_map (ends r)) [s]
  end.

Definition newline : string := String "010" "".

(** [$] without [re.MULTILINE]: at the end of the string, or just before
    a newline that ends it. *)
Definition at_end (rest : string) : bool :=
  String.eqb rest "" || String.eqb rest newline.

(** [bool(pattern.match(s))] *)
Definition matches (p : pattern) (s : string) : bool :=
  existsb at_end (ends (body p) s).

Definition digit : regex := Class [CRange "0" "9"].

Fixpoint seq_of (rs : list regex) : regex :=
  match rs with
  | [] => Empty
  | [r] => r
  | r :: rs' => Seq r (seq_of rs')
  end.

End Re.

(** ** The module *)

Definition API_URL : string := "http://finder.creodias.eu/resto/api/collections/".
Definition MAX_PAGES : Z := 1000.
Definition MAX_RECORDS : Z := 1000.

(** Calling the class [RequestError], whose [__init__(self, message, errors)]
    takes exactly two arguments besides [self]; a call with any other
    number of arguments fails with a [TypeError] and builds no
    [RequestError]. *)
Definition RequestError_new (args : list pyval) : exn :=
  match args with
  | [message; errors] => RequestError message errors
  | [_] =>
      TypeError "RequestError.__init__() missing 1 required positional argument: 'errors'"
  | [] =>
      TypeError ("RequestError.__init__() missing 2 required positional arguments: "
                 +:+ "'message' and 'errors'")
  | _ =>
      TypeError ("RequestError.__init__() takes 3 positional arguments but "
                 +:+ pretty (S (length args)) +:+ " were given")
  end.

(** The text of the pattern in [_parse_date]: two adjacent f-strings, in
    which [{4}] and [{2}] are replacement fields. *)
Definition date_pattern_text : string :=
  fstring [FText "^[0-9]"; FExpr 4; FText "-[0-9]"; FExpr 2; FText "-[0-9]"; FExpr 2;
           FText "(T[0-9]"; FExpr 2; FText ":[0-9]"; FExpr 2; FText ":[0-9]"; FExpr 2]
  +:+
  fstring [FText "(\.[0-9]+)?(|Z|[\+\-][0-9]"; FExpr 2; FText ":[0-9]"; FExpr 2;
           FText "))?$"].

Import Re.

(** [re.compile(date_pattern_text)] *)
Definition date_pattern : pattern :=
  let d n := Seq digit (Lit n) in
  Anchored
    (seq_of
       [d "4"; Lit "-"; d "2"; Lit "-"; d "2";
        Opt (Group (seq_of
          [Lit "T"; d "2"; Lit ":"; d "2"; Lit ":"; d "2";
           Opt (Group (Seq (Esc ".") (Plus digit)));
           Group (Alt Empty (Alt (Lit "Z")
                   (seq_of [Class [CEsc "+"; CEsc "-"]; d "2"; Lit ":"; d "2"])))]))])%char.

(** The same text read without interpolation, [{4}] and [{2}] being
    repetition counts: the pattern the spec describes,
    YYYY-MM-DD optionally followed by THH:MM:SS[.fraction][Z|±HH:MM]. *)
Definition iso_pattern_text : string :=
  "^[0-9]{4}-[0-9]{2}-[0-9]{2}(T[0-9]{2}:[0-9]{2}:[0-9]{2}"
  +:+ "(\.[0-9]+)?(|Z|[\+\-][0-9]{2}:[0-9]{2}))?$".

Definition iso_pattern : pattern :=
  let d n := Repeat digit n in
  Anchored
    (seq_of
       [d 4; Lit "-"; d 2; Lit "-"; d 2;
        Opt (Group (seq_of
          [Lit "T"; d 2; Lit ":"; d 2; Lit ":"; d 2;
           Opt (Group (Seq (Esc ".") (Plus digit)));
           Group (Alt Empty (Alt (Lit "Z")
                   (seq_of [Class [CEsc "+"; CEsc "-"]; d 2; Lit ":"; d 2])))]))])%char%nat.

(** The collaborators the module imports: [urljoin] (six / urllib),
    [dateutil.parser.parse], [datetime.isoformat] and the formatting of one
    value by [str.format]. *)
Class External := {
  urljoin : string -> string -> string;
  dateutil_parse : string -> result datetime;
  isoformat : datetime -> string;
  format_field : pyval -> string
}.

(** The decoded body of a response, typed by the wire contract
    [{"properties": {"itemsPerPage": int}, "features": [{"id": str, ...}]}];
    the remaining fields of a feature are carried untouched in [payload]. *)
Record feature := mk_feature {
  feature_id : string;
  payload : string
}.

Record page := mk_page {
  itemsPerPage : Z;
  features : list feature
}.

Record response := mk_response {
  status_code : Z;
  json : page
}.

(** [response.raise_for_status()] *)
Definition raise_for_status (r : response) : result unit :=
  if (400 <=? status_code r) && (status_code r <? 600)
  then Raise (HTTPError (status_code r))
  else Ok tt.

Definition _add_time (date : datetime) : result datetime :=
  if (hour date =? 0) && (minute date =? 0) && (second date =? 0)
  then datetime_add date (timedelta_new 0 23 59 59 0)
  else Ok date.

Definition _convert_wkt (geometry : pyval) : result string :=
  match geometry with
  | PyStr g =>
      Ok (replace (replace (replace g ", " "," None) " " "" (Some 1%nat)) " " "+" None)
  | _ => Raise (ValueError "Geometry must be in well-known text format")
  end.

(** The test of [_parse_argvalue] on the stripped value:
    [any(value.startswith(s[0]) and value.endswith(s[1]) for s in [...])] *)
Definition bracketed (value : string) : bool :=
  existsb (fun s => startswith value (item s 0) && endswith value (item s 1))
          ["[]"; "{}"; "//"; "()"].

(** The order [sorted] puts the items of a dict in: the keys of a dict
    are distinct, so two items compare as their keys do. *)
Definition key_le (p q : string * pyval) : Prop := String.le p.1 q.1.

#[global] Instance key_le_dec : RelDecision key_le :=
  fun p q => decide (String.le p.1 q.1).

Section Encoder.
Context `{External}.

Definition _parse_date (date : pyval) : result datetime :=
  let pattern := date_pattern in
  match date with
  | PyDatetime d => Ok d
  | PyStr s =>
      if matches pattern s then dateutil_parse s
      else Raise (ValueError
             "Date {date} is not in a valid format. Use Datetime object or iso string")
  | _ => Raise (TypeError "expected string or bytes-like object")
  end.

Definition _parse_argvalue (value : pyval) : result string :=
  match value with
  | PyStr s =>
      let value := strip s in
      if negb (bracketed value)
      then Ok (re_sub_char isspace "\ " value re_M)
      else Ok value
  | PyList l | PyTuple l =>
      match l with
      | [a; b] => Ok ("[" +:+ format_field a +:+ "," +:+ format_field b +:+ "]")
      | _ => Raise (ValueError
               ("Invalid number of elements in list. Expected 2, received "
                +:+ pretty (length l)))
      end
  | _ => Raise (ValueError
           "Additional arguments can be either string or tuple/list of 2 values")
  end.

(** [urljoin(API_URL, collection)] for a truthy [collection]: mixing a
    [str] base with a value of another type is a [TypeError]. *)
Definition urljoin_value (base : string) (url : pyval) : result string :=
  match url with
  | PyStr s => Ok (urljoin base s)
  | _ => Raise (TypeError "Cannot mix str and non-str arguments")
  end.

(** [sorted(kwargs.items())] *)
Definition sorted_items (kwargs : gmap string pyval) : list (string * pyval) :=
  merge_sort key_le (map_to_list kwargs).

(** The body of the [for attr, value in sorted(kwargs.items())] loop. *)
Fixpoint add_filters (url : string) (items : list (string * pyval)) : result string :=
  match items with
  | [] => Ok url
  | (attr, value) :: rest =>
      value ← _parse_argvalue value;
      add_filters (url +:+ "&" +:+ attr +:+ "=" +:+ value) rest
  end.

(** Lines 45-63 of [query]: the URL every page request starts from. *)
Definition build_url (collection start_date end_date geometry : pyval)
           (kwargs : gmap string pyval) : result string :=
  let url := API_URL in
  url ← (if truthy collection then urljoin_value API_URL collection else Ok url);
  let url := url +:+ "/search.json?" in
  url ← (if truthy start_date then
           start_date ← _parse_date start_date;
           Ok (url +:+ "&startDate=" +:+ isoformat start_date)
         else Ok url);
  url ← (if truthy end_date then
           end_date ← _parse_date end_date;
           end_date ← _add_time end_date;
           Ok (url +:+ "&completionDate=" +:+ isoformat end_date)
         else Ok url);
  url ← (if truthy geometry then
           geometry ← _convert_wkt geometry;
           Ok (url +:+ "&geometry=" +:+ geometry)
         else Ok url);
  url ← add_filters url (sorted_items kwargs);
  Ok (url +:+ "&maxRecords=" +:+ pretty MAX_RECORDS).
End Encoder.

(** ** The page loop *)

Section Pagination.
Context `{External} {World : Type}.
(** [requests.get]: the response to a URL, and the world after it. *)
Variable requests_get : string -> World -> response * World.

Definition url_of_page (url : string) (page : nat) : string :=
  url +:+ "&page=" +:+ pretty (page + 1)%nat.

(** [query_response[feature['id']] = feature] for each feature. *)
Definition merge_features (query_response : gmap string feature)
           (fs : list feature) : gmap string feature :=
  foldl (fun m f => <[feature_id f := f]> m) query_response fs.

(** What a run leaves behind: the value returned or the exception
    raised, the world, and the URLs requested, in order. *)
Record outcome := mk_outcome {
  returned : result (gmap string feature);
  world : World;
  requested : list string
}.

Definition request_made (u : string) (o : outcome) : outcome :=
  {| returned := returned o; world := world o; requested := u :: requested o |}.

(** The loop [for page in range(1000)] over the page numbers still to
    come; running out of them falls through to [return query_response]. *)
Fixpoint page_loop (url : string) (pages : list nat)
         (query_response : gmap string feature) (w : World) : outcome :=
  match pages with
  | [] => mk_outcome (Ok query_response) w []
  | page :: rest =>
      let url_page := url_of_page url page in
      let '(response, w) := requests_get url_page w in
      request_made url_page
        match raise_for_status response with
        | Raise e => mk_outcome (Raise e) w []
        | Ok _ =>
            let data := json response in
            if itemsPerPage data =? 0 then mk_outcome (Ok query_response) w []
            else if (page =? 999)%nat
            then mk_outcome (Raise (RequestError_new [PyStr "The query is too large."])) w []
            else page_loop url rest (merge_features query_response (features data)) w
        end
  end.

(** The responses the transport gives to a run of requests, and the
    world after them. *)
Fixpoint serve (urls : list string) (w : World) : list response * World :=
  match urls with
  | [] => ([], w)
  | u :: us =>
      let '(r, w) := requests_get u w in
      let '(rs, w) := serve us w in
      (r :: rs, w)
  end.

Definition query (collection start_date end_date geometry : pyval)
           (kwargs : gmap string pyval) (w : World) : outcome :=
  match build_url collection start_date end_date geometry kwargs with
  | Raise e => mk_outcome (Raise e) w []
  | Ok url => page_loop url (seq 0 1000) ∅ w
  end.
End Pagination.

Arguments outcome World : clear implicits.
Arguments mk_outcome {World} returned world requested.

(** The outcome of a run that follows the requests [us]. *)
Definition prepend {World} (us : list string) (o : outcome World) : outcome World :=
  mk_outcome (returned o) (world o) (us ++ requested o).

(** A response the loop reads as a page: its status is not an error. *)
Definition success (r : response) : bool :=
  negb ((400 <=? status_code r) && (status_code r <? 600)).

(** A response after which the loop goes on: a page with items. *)
Definition nonempty_page (r : response) : bool :=
  success r && negb (itemsPerPage (json r) =? 0).

(** All features of a run of pages, in the order they are merged. *)
Definition features_of (rs : list response) : list feature :=
  concat (map (fun r => features (json r)) rs).

(** The last record of [fs] carrying the id [k]. *)
Definition last_with_id (k : string) (fs : list feature) : option feature :=
  last (filter (fun f => feature_id f = k) fs).

(** ** Fragments of the query string

    The URL seen as the spec's EncodedQuery: a base path followed by an
    ordered sequence of fragments. *)

Section Fragments.
Context `{External}.

Definition base_path (collection : pyval) : result string :=
  url ← (if truthy collection then urljoin_value API_URL collection else Ok API_URL);
  Ok (url +:+ "/search.json?").

Definition start_fragments (start_date : pyval) : result (list string) :=
  if truthy start_date then
    d ← _parse_date start_date;
    Ok ["&startDate=" +:+ isoformat d]
  else Ok [].

Definition end_fragments (end_date : pyval) : result (list string) :=
  if truthy end_date then
    d ← _parse_date end_date;
    d ← _add_time d;
    Ok ["&completionDate=" +:+ isoformat d]
  else Ok [].

Definition geometry_fragments (geometry : pyval) : result (list string) :=
  if truthy geometry then
    g ← _convert_wkt geometry;
    Ok ["&geometry=" +:+ g]
  else Ok [].

Fixpoint filter_fragments (items : list (string * pyval)) : result (list string) :=
  match items with
  | [] => Ok []
  | (attr, value) :: rest =>
      v ← _parse_argvalue value;
      frs ← filter_fragments rest;
      Ok (("&" +:+ attr +:+ "=" +:+ v) :: frs)
  end.

Definition max_records_fragments : result (list string) :=
  Ok ["&maxRecords=" +:+ pretty MAX_RECORDS].

(** The groups of fragments evaluated and laid out one after the other;
    the first group that raises decides the exception. *)
Fixpoint in_order (groups : list (result (list string))) : result (list string) :=
  match groups with
  | [] => Ok []
  | g :: rest =>
      frs ← g;
      more ← in_order rest;
      Ok (frs ++ more)
  end.

Definition url_of (base : result string) (groups : list (result (list string)))
  : result string :=
  b ← base;
  frs ← in_order groups;
  Ok (b +:+ join frs).

(** The order of the code: dates, geometry, filters, page size. *)
Definition url_in_code_order (collection start_date end_date geometry : pyval)
           (kwargs : gmap string pyval) : result string :=
  url_of (base_path collection)
         [start_fragments start_date; end_fragments end_date;
          geometry_fragments geometry;
          filter_fragments (sorted_items kwargs);
          max_records_fragments].

(** The order the spec's data model words: dates, filters, geometry,
    page size. *)
Definition url_in_spec_order (collection start_date end_date geometry : pyval)
           (kwargs : gmap string pyval) : result string :=
  url_of (base_path collection)
         [start_fragments start_date; end_fragments end_date;
          filter_fragments (sorted_items kwargs);
          geometry_fragments geometry;
          max_records_fragments].
End Fragments.

(** ** Escaping of whitespace *)

(** What [re.sub] does to a value without its count: each whitespace
    character becomes a backslash and a space. *)
Fixpoint whitespace_to_escaped_space (s : string) : string :=
  match s with
  | EmptyString => EmptyString
  | String c rest =>
      if isspace c then String "\" (String " " (whitespace_to_escaped_space rest))
      else String c (whitespace_to_escaped_space rest)
  end.

(** The spec's wording: each whitespace character prefixed by a
    backslash. *)
Fixpoint whitespace_prefixed (s : string) : string :=
  match s with
  | EmptyString => EmptyString
  | String c rest =>
      if isspace c then String "\" (String c (whitespace_prefixed rest))
      else String c (whitespace_prefixed rest)
  end.

Fixpoint count_whitespace (s : string) : nat :=
  match s with
  | EmptyString => O
  | String c rest => ((if isspace c then 1 else 0) + count_whitespace rest)%nat
  end.

(** ** Stand-ins for running the definitions

    Concrete collaborators and a canned transport, used where a statement
    is evaluated on explicit inputs. *)

Module Demo.

(** A naive date reader: every accepted string is read as midnight of
    day one. *)
Definition epoch : datetime := mk_datetime 1 0 0 0 0 None.

Definition show_datetime (d : datetime) : string :=
  "day" +:+ pretty (ordinal d) +:+ "T" +:+ pretty (hour d) +:+ ":"
  +:+ pretty (minute d) +:+ ":" +:+ pretty (second d).

Definition show_value (v : pyval) : string :=
  match v with
  | PyInt z => pretty z
  | PyStr s => s
  | _ => "?"
  end.

#[export] Instance external : External := {|
  urljoin := String.append;
  dateutil_parse := fun _ => Ok epoch;
  isoformat := show_datetime;
  format_field := show_value
|}.

(** A transport that hands out a prepared list of responses, one per
    request, and empty pages once the list is used up. *)
Definition empty_page : response := mk_response 200 (mk_page 0 []).

Definition canned (url : string) (w : list response) : response * list response :=
  match w with
  | [] => (empty_page, [])
  | r :: rest => (r, rest)
  end.

(** A transport whose every page is full. *)
Definition full_page : response :=
  mk_response 200 (mk_page 1000 [mk_feature "p" "{}"]).

Definition endless (url : string) (w : unit) : response * unit := (full_page, w).

Definition no_filters : gmap string pyval := ∅.

Definition base_url : string :=
  "http://finder.creodias.eu/resto/api/collections//search.json?&maxRecords=1000".

(** Two pages returning the id [x], and an empty page that nevertheless
    lists a feature. *)
Definition p1 : response :=
  mk_response 200 (mk_page 2 [mk_feature "x" "old"; mk_feature "y" "only"]).
Definition p2 : response :=
  mk_response 200 (mk_page 1 [mk_feature "x" "new"]).
Definition pz : response :=
  mk_response 200 (mk_page 0 [mk_feature "z" "ignored"]).

(** A value with a tab inside. *)
Definition tabbed : string := "a" +:+ String "009" "b".

(** The filters b=x and a=y, and the URL of a full query with them. *)
Definition filters_ba : gmap string pyval :=
  <["b" := PyStr "x"]> (<["a" := PyStr "y"]> ∅).

Definition url_ba : string :=
  "http://finder.creodias.eu/resto/api/collections/Sentinel1/search.json?"
  +:+ "&startDate=day1T0:0:0&completionDate=day1T23:59:59"
  +:+ "&geometry=POINT(1+2)&a=y&b=x&maxRecords=1000".

(** A response with an error status, filters one of which cannot be
    encoded, and two timestamps of one day. *)
Definition p_err : response :=
  mk_response 503 (mk_page 7 [mk_feature "q" "lost"]).

Definition filters_bad : gmap string pyval :=
  <["n" := PyInt 3]> (<["a" := PyStr "y"]> ∅).

Definition midnight : datetime := mk_datetime 737425 0 0 0 0 None.

Definition end_of_that_day : datetime := mk_datetime 737425 23 59 59 0 None.

(** A transport that counts its requests: a thousand full pages, then
    empty pages. *)
Definition full_then_empty (url : string) (served : nat) : response * nat :=
  (if (served <? 1000)%nat then full_page else empty_page, S served).

(** A response that reports no items under an error status. *)
Definition pz_err : response := mk_response 503 (mk_page 0 []).

End Demo.

(** ** Vocabulary for further properties *)

(** A value [_parse_argvalue] can encode: a string, or a list or tuple of
    two elements. *)
Definition encodable (value : pyval) : bool :=
  match value with
  | PyStr _ => true
  | PyList [_; _] | PyTuple [_; _] => true
  | _ => false
  end.

(** The character [c] occurs in [s]. *)
Definition occurs (c : ascii) (s : string) : Prop := In c (list_ascii_of_string s).

(** [c in "0123456789"] *)
Definition is_digit (c : ascii) : bool :=
  ((N_of_ascii "0" <=? N_of_ascii c) && (N_of_ascii c <=? N_of_ascii "9"))%N.

(** The date-only text [a4-b2-c2], the shortest the pattern of
    [_parse_date] accepts. *)
Definition date_text (a b c : ascii) : string :=
  String a (String "4" (String "-" (String b (String "2" (String "-"
    (String c (String "2" ""))))))).

(** The message of the [ValueError] of [_parse_date]. *)
Definition date_error : exn :=
  ValueError "Date {date} is not in a valid format. Use Datetime object or iso string".

(** The time of day in seconds. *)
Definition seconds_of_day (d : datetime) : Z :=
  hour d * 3600 + minute d * 60 + second d.

(** * Properties *)

(** ** The page loop *)

Section PaginationFacts.
Context `{External} {World : Type}.
Variable requests_get : string -> World -> response * World.

Lemma raise_for_status_success r :
  success r = true -> raise_for_status r = Ok tt.
Proof.
  unfold success, raise_for_status.
  destruct (_ && _); [discriminate | reflexivity].
Qed.

Lemma merge_features_app acc fs gs :
  merge_features (merge_features acc fs) gs = merge_features acc (fs ++ gs).
Proof. unfold merge_features. now rewrite foldl_app. Qed.

(** While the pages have items and the ceiling is not reached, the loop
    requests one page after the other and merges what they hold. *)
Lemma page_loop_continue url ps rest :
  forall acc w rs w',
    Forall (fun p => p <> 999%nat) ps ->
    serve requests_get (map (url_of_page url) ps) w = (rs, w') ->
    forallb nonempty_page rs = true ->
    page_loop requests_get url (ps ++ rest) acc w =
    prepend (map (url_of_page url) ps)
            (page_loop requests_get url rest
                       (merge_features acc (features_of rs)) w').
Proof.
  induction ps as [|p ps IH]; intros acc w rs w' Hne Hserve Hall.
  - simpl in Hserve. injection Hserve as <- <-.
    simpl. unfold prepend. now destruct (page_loop _ _ _ _ _).
  - inversion Hne as [|? ? Hp Hps]; subst.
    simpl in Hserve. simpl.
    destruct (requests_get (url_of_page url p) w) as [r w1].
    destruct (serve requests_get (map (url_of_page url) ps) w1) as [rs1 w2] eqn:Hs.
    injection Hserve as <- <-.
    simpl in Hall. apply andb_true_iff in Hall as [Hr Hrs].
    unfold nonempty_page in Hr. apply andb_true_iff in Hr as [Hok Hnz].
    rewrite (raise_for_status_success _ Hok).
    apply negb_true_iff in Hnz. rewrite Hnz.
    apply Nat.eqb_neq in Hp. rewrite Hp.
    rewrite (IH _ _ _ _ Hps Hs Hrs).
    unfold features_of. simpl. rewrite <- merge_features_app.
    reflexivity.
Qed.

Lemma serve_app us vs w :
  serve requests_get (us ++ vs) w =
  let '(rs, w1) := serve requests_get us w in
  let '(rs', w2) := serve requests_get vs w1 in
  (rs ++ rs', w2).
Proof.
  revert w. induction us as [|u us IH]; intros w; simpl.
  - now destruct (serve requests_get vs w).
  - destruct (requests_get u w) as [r w1]. rewrite IH.
    destruct (serve requests_get us w1) as [rs w2].
    now destruct (serve requests_get vs w2).
Qed.

Lemma serve_length us w :
  length (serve requests_get us w).1 = length us.
Proof.
  revert w. induction us as [|u us IH]; intros w; simpl; [reflexivity|].
  destruct (requests_get u w) as [r w1]. specialize (IH w1).
  destruct (serve requests_get us w1). simpl in *. now rewrite IH.
Qed.

Lemma seq_below_999 k : (k <= 999)%nat -> Forall (fun p => p <> 999%nat) (seq 0 k).
Proof.
  intros Hk. apply Forall_forall. intros p Hp.
  apply list_elem_of_In, in_seq in Hp. lia.
Qed.

Lemma merge_features_lookup k fs :
  forall acc,
    merge_features acc fs !! k =
    match last_with_id k fs with
    | Some f => Some f
    | None => acc !! k
    end.
Proof.
  unfold last_with_id.
  induction fs as [|x fs IH]; intros acc; [reflexivity|].
  change (merge_features acc (x :: fs))
    with (merge_features (<[feature_id x := x]> acc) fs).
  rewrite IH, filter_cons. destruct (decide (feature_id x = k)) as [->|Hne].
  - rewrite last_cons. destruct (last _); [reflexivity|].
    apply lookup_insert_eq.
  - destruct (last _); [reflexivity|]. now apply lookup_insert_ne.
Qed.

Lemma last_with_id_elem k fs g0 :
  last_with_id k fs = Some g0 -> feature_id g0 = k /\ g0 ∈ fs.
Proof.
  unfold last_with_id. intros Hlast.
  apply last_Some_elem_of, list_elem_of_filter in Hlast. exact Hlast.
Qed.




(** A run that meets its first empty page after [k] pages with items. *)
Lemma query_run c s e g kw url w (k : nat) rs rz w' :
  build_url c s e g kw = Ok url ->
  (k < 1000)%nat ->
  serve requests_get (map (url_of_page url) (seq 0 (S k))) w = (rs ++ [rz], w') ->
  forallb nonempty_page rs = true ->
  success rz = true ->
  itemsPerPage (json rz) = 0 ->
  query requests_get c s e g kw w =
  mk_outcome (Ok (merge_features ∅ (features_of rs))) w'
             (map (url_of_page url) (seq 0 (S k))).
Proof.
  intros Hurl Hk Hserve Hall Hok Hzero.
  unfold query. rewrite Hurl.
  rewrite (seq_S k 0), map_app in Hserve |- *.
  replace 1000%nat with (k + (1 + (999 - k)))%nat by lia.
  rewrite seq_app. simpl seq at 2.
  rewrite serve_app in Hserve.
  destruct (serve requests_get (map (url_of_page url) (seq 0 k)) w)
    as [rs0 w1] eqn:Hs0.
  simpl in Hserve.
  destruct (requests_get (url_of_page url k) w1) as [r w2] eqn:Hget.
  injection Hserve as Hrs <-.
  apply app_inj_tail in Hrs as [-> ->].
  rewrite (page_loop_continue _ _ _ _ _ _ _ (seq_below_999 k ltac:(lia)) Hs0 Hall).
  simpl page_loop. rewrite Hget.
  rewrite (raise_for_status_success _ Hok), Hzero.
  reflexivity.
Qed.

(** Pages with items up to the page numbered 999: the loop ends there
    by raising. *)
Lemma page_loop_ceiling url ps acc w :
  Forall (fun p => p <> 999%nat) ps ->
  let served := serve requests_get (map (url_of_page url) (ps ++ [999%nat])) w in
  forallb nonempty_page served.1 = true ->
  page_loop requests_get url (ps ++ [999%nat]) acc w =
  mk_outcome (Raise (RequestError_new [PyStr "The query is too large."]))
             served.2 (map (url_of_page url) (ps ++ [999%nat])).
Proof.
  intros Hps served Hall. subst served.
  rewrite map_app, serve_app in Hall |- *.
  destruct (serve requests_get (map (url_of_page url) ps) w)
    as [rs0 w1] eqn:Hs0.
  cbn [map serve] in Hall |- *.
  destruct (requests_get (url_of_page url 999) w1) as [r w2] eqn:Hget.
  cbn [fst snd] in Hall |- *.
  rewrite forallb_app in Hall. apply andb_true_iff in Hall as [Hall Hr].
  cbn [forallb] in Hr. rewrite andb_true_r in Hr.
  apply andb_true_iff in Hr as [Hok Hnz]. apply negb_true_iff in Hnz.
  rewrite (page_loop_continue _ _ _ _ _ _ _ Hps Hs0 Hall).
  cbn [page_loop]. rewrite Hget.
  rewrite (raise_for_status_success _ Hok), Hnz.
  reflexivity.
Qed.

(** A run whose first thousand pages all have items. *)
Lemma query_overflow c s e g kw url w :
  build_url c s e g kw = Ok url ->
  let served := serve requests_get (map (url_of_page url) (seq 0 1000)) w in
  forallb nonempty_page served.1 = true ->
  query requests_get c s e g kw w =
  mk_outcome (Raise (RequestError_new [PyStr "The query is too large."]))
             served.2 (map (url_of_page url) (seq 0 1000)).
Proof.
  intros Hurl. unfold query. rewrite Hurl.
  rewrite (seq_S 999 0), Nat.add_0_l.
  apply page_loop_ceiling, seq_below_999. lia.
Qed.

Lemma pages_from_one url n :
  map (url_of_page url) (seq 0 n) =
  map (fun i => url +:+ "&page=" +:+ pretty i) (seq 1 n).
Proof.
  rewrite <- seq_shift, map_map. apply map_ext. intros p.
  unfold url_of_page. now rewrite Nat.add_1_r.
Qed.

(** Whatever the transport answers, the loop requests the pages in
    order, one request per page number, and stops at some point. *)
Lemma page_loop_requests url pages :
  forall acc w,
    exists n : nat,
      (n <= length pages)%nat /\
      requested (page_loop requests_get url pages acc w) =
      map (url_of_page url) (take n pages).
Proof.
  induction pages as [|page rest IH]; intros acc w.
  - exists 0%nat. split; [simpl; lia | reflexivity].
  - cbn [page_loop].
    destruct (requests_get (url_of_page url page) w) as [r w1].
    destruct (raise_for_status r);
      [destruct (itemsPerPage (json r) =? 0);
       [|destruct (page =? 999)%nat;
         [|destruct (IH (merge_features acc (features (json r))) w1)
             as (n & Hn & Hreq);
           exists (S n); split; [simpl; lia|];
           cbn [request_made requested take map]; now rewrite Hreq]]|];
      (exists 1%nat; split; [simpl; lia | reflexivity]).
Qed.

(** A query makes at most 1000 requests: those for page=1, page=2, ... up
    to some page, and none when the URL cannot be built. *)
Lemma query_requests_bounded c s e geom kw w :
  exists n : nat,
    (n <= 1000)%nat /\
    forall url,
      build_url c s e geom kw = Ok url ->
      requested (query requests_get c s e geom kw w) =
      map (fun i => url +:+ "&page=" +:+ pretty i) (seq 1 n).
Proof.
  unfold query. destruct (build_url c s e geom kw) as [url|err].
  - destruct (page_loop_requests url (seq 0 1000) ∅ w) as (n & Hn & Hreq).
    rewrite length_seq in Hn.
    exists n. split; [exact Hn|]. intros url' [= <-].
    rewrite Hreq, take_seq, Nat.min_l by exact Hn. apply pages_from_one.
  - exists 0%nat. split; [lia|]. intros url' Habs. discriminate Habs.
Qed.



(** C3, as the code has it: when the first response reporting zero items
    per page, [rz], is among the first 1000 responses and it and the
    responses [rs] before it, which all have items, carry no error
    status, the loop stops at [rz]: exactly the requests for page=1 to
    page=[k + 1] are made and a mapping is returned that holds what the
    earlier pages [rs] accumulated and nothing else: each id is mapped to
    the last record with that id among the features of [rs], and a
    feature of [rz] whose id no earlier page returned is not in it. *)
Theorem query_stops_at_first_empty_page
        c s e geom kw url w (k : nat) rs rz w' :
  build_url c s e geom kw = Ok url ->
  (k < 1000)%nat ->
  serve requests_get (map (url_of_page url) (seq 0 (S k))) w = (rs ++ [rz], w') ->
  forallb nonempty_page rs = true ->
  success rz = true ->
  itemsPerPage (json rz) = 0 ->
  exists m,
    query requests_get c s e geom kw w =
    mk_outcome (Ok m) w' (map (url_of_page url) (seq 0 (S k))) /\
    m = merge_features ∅ (features_of rs) /\
    (forall key, m !! key = last_with_id key (features_of rs)) /\
    (forall f, f ∈ features_of rs -> is_Some (m !! feature_id f)) /\
    (forall f, f ∈ features (json rz) ->
               last_with_id (feature_id f) (features_of rs) = None ->
               m !! feature_id f = None).
Proof.
  intros Hurl Hk Hserve Hall Hok Hzero.
  exists (merge_features ∅ (features_of rs)).
  assert (Hlookup : forall key,
             merge_features ∅ (features_of rs) !! key =
             last_with_id key (features_of rs)).
  { intros key. rewrite merge_features_lookup, lookup_empty.
    now destruct (last_with_id key (features_of rs)). }
  split; [eapply query_run; eassumption|].
  split; [reflexivity|]. split; [exact Hlookup|]. split.
  - intros f Hf. rewrite Hlookup.
    destruct (last_with_id (feature_id f) (features_of rs)) as [g|] eqn:Hg; [eauto|].
    exfalso. unfold last_with_id in Hg. apply last_None in Hg.
    assert (Hin : f ∈ filter (fun g => feature_id g = feature_id f) (features_of rs))
      by now apply list_elem_of_filter.
    rewrite Hg in Hin. inversion Hin.
  - intros f _ Hnone. now rewrite Hlookup.
Qed.

(** C2: when each of the first 1000 responses is a page reporting a
    nonzero items-per-page count, no mapping is returned: the run ends by
    raising after exactly 1000 requests, for page=1 to page=1000.  The
    exception raised is the [TypeError] of the failed call
    [RequestError('The query is too large.')], which lacks the argument
    [errors], and not a [RequestError]. *)
Theorem query_too_large_raises_TypeError c s e geom kw url w :
  build_url c s e geom kw = Ok url ->
  forallb nonempty_page
          (serve requests_get (map (url_of_page url) (seq 0 1000)) w).1 = true ->
  query requests_get c s e geom kw w =
  mk_outcome
    (Raise (TypeError
       "RequestError.__init__() missing 1 required positional argument: 'errors'"))
    (serve requests_get (map (url_of_page url) (seq 0 1000)) w).2
    (map (fun i => url +:+ "&page=" +:+ pretty i) (seq 1 1000)).
Proof.
  intros Hurl Hall.
  rewrite (query_overflow _ _ _ _ _ _ _ Hurl Hall).
  now rewrite pages_from_one.
Qed.


End PaginationFacts.

(** ** Runs against the canned transports *)

Module Runs.
Import Demo.

Lemma query_stops_at_first_empty_page_witness :
  exists m,
    query canned PyNone PyNone PyNone PyNone no_filters [p1; p2; pz; p1] =
    mk_outcome (Ok m) [p1] (map (url_of_page base_url) (seq 0 3)) /\
    m = merge_features ∅ (features_of [p1; p2]) /\
    (forall key, m !! key = last_with_id key (features_of [p1; p2])) /\
    (forall f, f ∈ features_of [p1; p2] -> is_Some (m !! feature_id f)) /\
    (forall f, f ∈ features (json pz) ->
               last_with_id (feature_id f) (features_of [p1; p2]) = None ->
               m !! feature_id f = None).
Proof.
  apply (query_stops_at_first_empty_page
           canned PyNone PyNone PyNone PyNone no_filters base_url
           [p1; p2; pz; p1] 2 [p1; p2] pz [p1]).
  - vm_compute. reflexivity.
  - lia.
  - vm_compute. reflexivity.
  - vm_compute. reflexivity.
  - vm_compute. reflexivity.
  - vm_compute. reflexivity.
Defined.

(** The mapping of that run: the later record of [x], the record of [y],
    and nothing for [z], which only the empty page lists. *)
Example first_empty_page_run :
  exists m,
    returned (query canned PyNone PyNone PyNone PyNone no_filters [p1; p2; pz; p1]) = Ok m /\
    m !! "x" = Some (mk_feature "x" "new") /\
    m !! "y" = Some (mk_feature "y" "only") /\
    m !! "z" = None /\
    size m = 2%nat.
Proof. eexists. split; [vm_compute; reflexivity|]. repeat split. Qed.

(** C3, as the spec words it, fails in two ways.  When the first page
    reporting zero items comes after 1000 pages with items, the loop
    never reaches it and the run ends by raising at the ceiling; and a
    response that reports zero items under an error status raises the
    HTTP error.  In both runs the responses hold a page reporting zero
    items, every page before it has items, and no mapping is returned. *)
Lemma empty_page_not_reached :
  (build_url PyNone PyNone PyNone PyNone no_filters = Ok base_url /\
   serve full_then_empty (map (url_of_page base_url) (seq 0 1001)) 0%nat =
   (repeat full_page 1000 ++ [empty_page], 1001%nat) /\
   forallb nonempty_page (repeat full_page 1000) = true /\
   success empty_page = true /\
   itemsPerPage (json empty_page) = 0 /\
   forall m,
     returned (query full_then_empty PyNone PyNone PyNone PyNone no_filters 0%nat)
     <> Ok m) /\
  (serve canned (map (url_of_page base_url) (seq 0 2)) [p1; pz_err; p2] =
   ([p1] ++ [pz_err], [p2]) /\
   forallb nonempty_page [p1] = true /\
   itemsPerPage (json pz_err) = 0 /\
   returned (query canned PyNone PyNone PyNone PyNone no_filters [p1; pz_err; p2]) =
   Raise (HTTPError 503)).
Proof.
  split.
  - split; [vm_compute; reflexivity|].
    split; [vm_compute; reflexivity|].
    split; [vm_compute; reflexivity|].
    split; [reflexivity|]. split; [reflexivity|].
    intros m Heq. vm_compute in Heq. discriminate Heq.
  - repeat split; vm_compute; reflexivity.
Qed.

Lemma query_too_large_witness :
  query endless PyNone PyNone PyNone PyNone no_filters tt =
  mk_outcome
    (Raise (TypeError
       "RequestError.__init__() missing 1 required positional argument: 'errors'"))
    tt
    (map (fun i => base_url +:+ "&page=" +:+ pretty i) (seq 1 1000)).
Proof.
  apply (query_too_large_raises_TypeError
           endless PyNone PyNone PyNone PyNone no_filters base_url tt).
  - vm_compute. reflexivity.
  - vm_compute. reflexivity.
Defined.


End Runs.

(** ** The parameter encoder *)

Lemma timedelta_new_small days seconds us :
  0 <= seconds < 86400 -> 0 <= us < 1000000 ->
  timedelta_new days 0 0 seconds us = mk_timedelta days seconds us.
Proof.
  intros Hs Hus. unfold timedelta_new.
  rewrite (Z.div_small us), (Z.mod_small us) by lia.
  replace (0 * 3600 + 0 * 60 + seconds + 0) with seconds by lia.
  now rewrite Z.div_small, Z.mod_small, Z.add_0_r by lia.
Qed.

(** Adding 23:59:59 to a midnight keeps the day and the microseconds. *)
Lemma datetime_add_end_of_day day us tz :
  1 <= day <= MAXORDINAL -> 0 <= us < 1000000 ->
  datetime_add (mk_datetime day 0 0 0 us tz) (timedelta_new 0 23 59 59 0) =
  Ok (mk_datetime day 23 59 59 us tz).
Proof.
  intros Hday Hus. unfold datetime_add.
  cbn [ordinal hour minute second microsecond tzinfo].
  change (timedelta_new 0 23 59 59 0) with (mk_timedelta 0 86399 0).
  rewrite (timedelta_new_small day 0 us) by lia.
  unfold timedelta_add. cbn [td_days td_seconds td_microseconds].
  rewrite Z.add_0_r, Z.add_0_l, Z.add_0_r.
  rewrite (timedelta_new_small day 86399 us) by lia.
  cbn [td_days td_seconds td_microseconds].
  replace (0 <? day) with true by (symmetry; apply Z.ltb_lt; lia).
  replace (day <=? MAXORDINAL) with true by (symmetry; apply Z.leb_le; lia).
  reflexivity.
Qed.

(** C8: [_add_time] moves a timestamp whose hour, minute and second are
    all zero to 23:59:59 of the same date (microseconds and time zone are
    kept), and returns every other timestamp unchanged. *)
Theorem add_time_end_of_day (d : datetime) :
  valid_datetime d ->
  (hour d = 0 /\ minute d = 0 /\ second d = 0 ->
   _add_time d = Ok (mk_datetime (ordinal d) 23 59 59 (microsecond d) (tzinfo d))) /\
  (~ (hour d = 0 /\ minute d = 0 /\ second d = 0) ->
   _add_time d = Ok d).
Proof.
  intros (Hday & _ & _ & _ & Hus). unfold _add_time. split.
  - intros (Hh & Hm & Hs). rewrite Hh, Hm, Hs. simpl.
    destruct d as [day h m sec us tz]. simpl in *. subst h m sec.
    now apply datetime_add_end_of_day.
  - intros Hnot.
    destruct (hour d =? 0) eqn:Hh; [|reflexivity].
    destruct (minute d =? 0) eqn:Hm; [|reflexivity].
    destruct (second d =? 0) eqn:Hs; [|reflexivity].
    exfalso. apply Hnot. repeat split; now apply Z.eqb_eq.
Qed.

Lemma add_time_end_of_day_witness :
  valid_datetime (mk_datetime 737425 0 0 0 5 None) /\
  _add_time (mk_datetime 737425 0 0 0 5 None) = Ok (mk_datetime 737425 23 59 59 5 None) /\
  _add_time (mk_datetime 737425 0 30 0 0 (Some 120)) =
  Ok (mk_datetime 737425 0 30 0 0 (Some 120)).
Proof.
  assert (Hv : valid_datetime (mk_datetime 737425 0 0 0 5 None)).
  { unfold valid_datetime, MAXORDINAL. simpl. lia. }
  assert (Hv' : valid_datetime (mk_datetime 737425 0 30 0 0 (Some 120))).
  { unfold valid_datetime, MAXORDINAL. simpl. lia. }
  split; [exact Hv|]. split.
  - apply (add_time_end_of_day (mk_datetime 737425 0 0 0 5 None) Hv).
    simpl. lia.
  - apply (add_time_end_of_day (mk_datetime 737425 0 30 0 0 (Some 120)) Hv').
    simpl. lia.
Defined.

(** X10: [_add_time] is idempotent on valid timestamps: applying it to
    its own result gives that result again. *)
Lemma add_time_idempotent (d d' : datetime) :
  valid_datetime d -> _add_time d = Ok d' -> _add_time d' = Ok d'.
Proof.
  intros Hv. unfold _add_time.
  destruct ((hour d =? 0) && (minute d =? 0) && (second d =? 0)) eqn:Hz.
  - apply andb_true_iff in Hz as [Hz Hs]. apply andb_true_iff in Hz as [Hh Hm].
    apply Z.eqb_eq in Hh, Hm, Hs.
    destruct Hv as (Hday & _ & _ & _ & Hus).
    destruct d as [day h m sec us tz]. simpl in *. subst h m sec.
    rewrite datetime_add_end_of_day by assumption.
    intros [= <-]. reflexivity.
  - intros [= <-]. now rewrite Hz.
Qed.

(** C4, as the code has it: on "POLYGON ((1 2, 3 4))" the space after the
    comma goes, then the first space left (the one after the keyword),
    and the other spaces become [+]: the result is "POLYGON((1+2,3+4))". *)
Theorem convert_wkt_polygon :
  _convert_wkt (PyStr "POLYGON ((1 2, 3 4))") = Ok "POLYGON((1+2,3+4))".
Proof. reflexivity. Qed.

(** C4, as the spec words its example: the result is not
    "POLYGON+((1+2,3+4))". *)
Lemma convert_wkt_polygon_not_plus :
  _convert_wkt (PyStr "POLYGON ((1 2, 3 4))") <> Ok "POLYGON+((1+2,3+4))".
Proof. vm_compute. discriminate. Qed.

(** The three replacements of [_convert_wkt], one at a time. *)
Example convert_wkt_steps :
  replace "POLYGON ((1 2, 3 4))" ", " "," None = "POLYGON ((1 2,3 4))" /\
  replace "POLYGON ((1 2,3 4))" " " "" (Some 1%nat) = "POLYGON((1 2,3 4))" /\
  replace "POLYGON((1 2,3 4))" " " "+" None = "POLYGON((1+2,3+4))".
Proof. repeat split. Qed.

Section EncoderFacts.
Context `{External}.

Lemma sub_upto_within_limit p repl s :
  forall n : nat,
    (length (filter (fun c => p c = true) (list_ascii_of_string s)) <= n)%nat ->
    sub_upto p repl (Some n) s = sub_upto p repl None s.
Proof.
  induction s as [|c s IH]; intros n Hn; [reflexivity|].
  simpl in Hn. rewrite filter_cons in Hn. simpl.
  destruct (p c) eqn:Hc.
  - rewrite decide_True in Hn by reflexivity. simpl in Hn.
    destruct n as [|n]; [lia|]. rewrite IH by lia. reflexivity.
  - rewrite decide_False in Hn by discriminate. now rewrite IH.
Qed.

Lemma count_whitespace_filter s :
  count_whitespace s =
  length (filter (fun c => isspace c = true) (list_ascii_of_string s)).
Proof.
  induction s as [|c s IH]; [reflexivity|].
  simpl. rewrite filter_cons, IH.
  destruct (isspace c); [rewrite decide_True by reflexivity
                        |rewrite decide_False by discriminate]; reflexivity.
Qed.

Lemma sub_upto_all s :
  sub_upto isspace "\ " None s = whitespace_to_escaped_space s.
Proof.
  induction s as [|c s IH]; [reflexivity|].
  simpl. rewrite IH. now destruct (isspace c).
Qed.

(** C5, as the code has it: a string value is stripped; a stripped value
    bracketed by [], {}, // or () is returned as it is; any other
    stripped value with at most eight whitespace characters is returned
    with each whitespace character replaced by a backslash and a space;
    "hello world" gives "hello\ world". *)
Theorem parse_argvalue_string (s : string) :
  (bracketed (strip s) = true -> _parse_argvalue (PyStr s) = Ok (strip s)) /\
  (bracketed (strip s) = false ->
   (count_whitespace (strip s) <= 8)%nat ->
   _parse_argvalue (PyStr s) = Ok (whitespace_to_escaped_space (strip s))) /\
  _parse_argvalue (PyStr "hello world") = Ok "hello\ world".
Proof.
  split; [|split].
  - intros Hb. unfold _parse_argvalue. now rewrite Hb.
  - intros Hb Hcount. unfold _parse_argvalue. rewrite Hb. simpl negb. cbv iota.
    unfold re_sub_char, re_M. simpl Nat.eqb. cbv iota.
    rewrite sub_upto_within_limit, sub_upto_all; [reflexivity|].
    now rewrite <- count_whitespace_filter.
  - reflexivity.
Qed.

(** Where every whitespace character of the value is a space, replacing
    it by a backslash and a space is prefixing it by a backslash. *)
Lemma escaped_space_is_prefixed s :
  (forall c, In c (list_ascii_of_string s) -> isspace c = true -> c = " "%char) ->
  whitespace_to_escaped_space s = whitespace_prefixed s.
Proof.
  induction s as [|c s IH]; intros Hsp; [reflexivity|].
  simpl. rewrite IH by (intros c' Hin; apply Hsp; now right).
  destruct (isspace c) eqn:Hc; [|reflexivity].
  now rewrite (Hsp c (or_introl eq_refl) Hc).
Qed.

(** C1: a [datetime] is returned as it is. *)
Lemma parse_date_datetime d : _parse_date (PyDatetime d) = Ok d.
Proof. reflexivity. Qed.

(** C1: the ISO date "2020-01-01" is rejected, since the pattern is
    built from f-strings in which [{4}] and [{2}] are replaced by the
    digits 4 and 2; the message of the error holds the text [{date}] and
    not the offending value. *)
Theorem parse_date_rejects_iso_date :
  _parse_date (PyStr "2020-01-01") =
  Raise (ValueError
    "Date {date} is not in a valid format. Use Datetime object or iso string").
Proof. reflexivity. Qed.

(** A string the code's pattern accepts and hands to the date parser. *)
Example parse_date_accepts_14_22_32 :
  _parse_date (PyStr "14-22-32") = dateutil_parse "14-22-32".
Proof. reflexivity. Qed.

End EncoderFacts.

(** *** What the two patterns accept *)

Lemma existsb_flat_map {A B} (f : B -> bool) (g : A -> list B) (l : list A) :
  existsb f (flat_map g l) = existsb (fun x => existsb f (g x)) l.
Proof.
  induction l as [|x l IH]; [reflexivity|].
  simpl. now rewrite existsb_app, IH.
Qed.

Lemma in_eat p s t : In t (Re.eat p s) -> exists c, s = String c t /\ p c = true.
Proof.
  destruct s as [|c s]; simpl; [tauto|].
  destruct (p c) eqn:Hc; simpl; [|tauto].
  intros [<-|[]]. now exists c.
Qed.

Lemma in_ends_Seq r1 r2 s t :
  In t (Re.ends (Re.Seq r1 r2) s) ->
  exists m, In m (Re.ends r1 s) /\ In t (Re.ends r2 m).
Proof. simpl. intros Hin. now apply in_flat_map in Hin. Qed.

Lemma in_ends_Lit c s t : In t (Re.ends (Re.Lit c) s) -> s = String c t.
Proof.
  simpl. intros Hin. apply in_eat in Hin as (c' & -> & Hc).
  apply Ascii.eqb_eq in Hc. now subst.
Qed.

Lemma in_iter_flat_map (f : string -> list string) (n : nat) :
  forall l t,
    In t (Nat.iter n (flat_map f) l) ->
    exists m, In m l /\ In t (Nat.iter n (flat_map f) [m]).
Proof.
  induction n as [|n IH]; intros l t; simpl.
  - intros Hin. exists t. split; [exact Hin | now left].
  - intros Hin. apply in_flat_map in Hin as (u & Hu & Ht).
    apply IH in Hu as (m & Hm & Hu). exists m. split; [exact Hm|].
    apply in_flat_map. now exists u.
Qed.

Lemma in_ends_Repeat_S r n s t :
  In t (Re.ends (Re.Repeat r (S n)) s) ->
  exists m, In m (Re.ends r s) /\ In t (Re.ends (Re.Repeat r n) m).
Proof.
  cbn [Re.ends]. rewrite Nat.iter_succ_r. intros Hin.
  apply in_iter_flat_map in Hin as (m & Hm & Hin).
  simpl in Hm. rewrite app_nil_r in Hm. now exists m.
Qed.

Lemma matches_end p s :
  Re.matches p s = true -> exists t, In t (Re.ends (Re.body p) s).
Proof.
  unfold Re.matches. intros Hm. apply existsb_exists in Hm as (t & Ht & _).
  now exists t.
Qed.

(** A string the code's pattern accepts has [4] as its second character
    and [-] as its third. *)
Lemma date_pattern_shape s :
  Re.matches date_pattern s = true ->
  exists c rest, s = String c (String "4" (String "-" rest)).
Proof.
  intros Hm. apply matches_end in Hm as (t & Ht).
  unfold date_pattern in Ht. cbn [Re.body Re.seq_of] in Ht.
  apply in_ends_Seq in Ht as (m1 & H1 & Ht).
  apply in_ends_Seq in H1 as (m0 & H0 & H1).
  apply in_ends_Lit in H1 as ->.
  apply in_eat in H0 as (c & -> & _).
  apply in_ends_Seq in Ht as (m2 & H2 & _).
  apply in_ends_Lit in H2 as ->.
  now exists c, m2.
Qed.

(** A string the spec's pattern accepts has a digit as its third
    character. *)
Lemma iso_pattern_shape s :
  Re.matches iso_pattern s = true ->
  exists c1 c2 c3 rest,
    s = String c1 (String c2 (String c3 rest)) /\
    existsb (Re.in_item c3) [Re.CRange "0" "9"] = true.
Proof.
  intros Hm. apply matches_end in Hm as (t & Ht).
  unfold iso_pattern in Ht. cbn [Re.body Re.seq_of] in Ht.
  apply in_ends_Seq in Ht as (m & Hm & _).
  apply in_ends_Repeat_S in Hm as (m1 & H1 & Hm).
  apply in_ends_Repeat_S in Hm as (m2 & H2 & Hm).
  apply in_ends_Repeat_S in Hm as (m3 & H3 & _).
  apply in_eat in H1 as (c1 & -> & _).
  apply in_eat in H2 as (c2 & -> & _).
  apply in_eat in H3 as (c3 & -> & Hd).
  now exists c1, c2, c3, m3.
Qed.

(** No string is accepted by both patterns. *)
Lemma iso_pattern_excluded s :
  Re.matches iso_pattern s = true -> Re.matches date_pattern s = false.
Proof.
  intros Hiso. destruct (Re.matches date_pattern s) eqn:Hdate; [|reflexivity].
  apply iso_pattern_shape in Hiso as (c1 & c2 & c3 & rest & -> & Hd).
  apply date_pattern_shape in Hdate as (c & rest' & Heq).
  injection Heq as _ _ Hc3 _. subst c3. vm_compute in Hd. discriminate Hd.
Qed.

(** X21: [_parse_date] refuses every string of the ISO form, that is
    every string the pattern text accepts when [{4}] and [{2}] are read as
    repetition counts. *)
Lemma parse_date_rejects_every_iso_string `{External} s :
  Re.matches iso_pattern s = true ->
  _parse_date (PyStr s) =
  Raise (ValueError
    "Date {date} is not in a valid format. Use Datetime object or iso string").
Proof.
  intros Hiso. unfold _parse_date. now rewrite (iso_pattern_excluded s Hiso).
Qed.

Example date_pattern_source : Re.source date_pattern = date_pattern_text.
Proof. vm_compute. reflexivity. Qed.

Example iso_pattern_source : Re.source iso_pattern = iso_pattern_text.
Proof. vm_compute. reflexivity. Qed.

Example date_pattern_text_value :
  date_pattern_text =
  "^[0-9]4-[0-9]2-[0-9]2(T[0-9]2:[0-9]2:[0-9]2(\.[0-9]+)?(|Z|[\+\-][0-9]2:[0-9]2))?$".
Proof. vm_compute. reflexivity. Qed.

(** The pattern of the spec accepts the ISO date the code rejects. *)
Example iso_pattern_accepts :
  Re.matches iso_pattern "2020-01-01" = true /\
  Re.matches iso_pattern "2020-01-01T10:20:30.5+02:00" = true /\
  Re.matches date_pattern "2020-01-01" = false /\
  Re.matches date_pattern "2020-01-01T10:20:30.5+02:00" = false.
Proof. vm_compute. repeat split. Qed.

(** ** The assembled URL *)

Lemma append_assoc (a b c : string) : (a +:+ b) +:+ c = a +:+ (b +:+ c).
Proof.
  induction a as [|x a IH]; [reflexivity|].
  change (String x ((a +:+ b) +:+ c) = String x (a +:+ (b +:+ c))).
  f_equal. exact IH.
Qed.

Lemma append_empty_r (a : string) : a +:+ "" = a.
Proof.
  induction a as [|x a IH]; [reflexivity|].
  change (String x (a +:+ "") = String x a).
  f_equal. exact IH.
Qed.

Lemma join_app (xs ys : list string) : join (xs ++ ys) = join xs +:+ join ys.
Proof.
  induction xs as [|x xs IH]; simpl; [reflexivity|].
  now rewrite IH, append_assoc.
Qed.

#[local] Instance key_le_total : Total key_le.
Proof. intros p q. unfold key_le. apply (total String.le). Qed.

#[local] Instance key_le_trans : Transitive key_le.
Proof. intros p q r. unfold key_le. apply transitivity. Qed.

Lemma le_ne_ltb (a b : string) : String.le a b -> a <> b -> String.ltb a b = true.
Proof.
  unfold String.le, String.leb, String.ltb. intros Hle Hne.
  destruct (String.compare a b) eqn:Hc; [|reflexivity|].
  - now apply String.compare_eq_iff in Hc.
  - now simpl in Hle.
Qed.

Lemma sorted_items_Permutation (kwargs : gmap string pyval) :
  sorted_items kwargs ≡ₚ map_to_list kwargs.
Proof. apply merge_sort_Permutation. Qed.

(** The sorted items have strictly ascending keys. *)
Lemma sorted_items_ascending (kwargs : gmap string pyval) :
  StronglySorted (fun p q => String.ltb p.1 q.1 = true) (sorted_items kwargs).
Proof.
  assert (Hnd : NoDup (sorted_items kwargs).*1).
  { rewrite sorted_items_Permutation. apply NoDup_fst_map_to_list. }
  assert (Hs : StronglySorted key_le (sorted_items kwargs)).
  { apply (StronglySorted_merge_sort key_le). }
  induction Hs as [|p l Hs IH Hall]; [constructor|].
  simpl in Hnd. apply NoDup_cons in Hnd as [Hnotin Hnd].
  constructor; [now apply IH|].
  apply Forall_forall. intros q Hq.
  apply le_ne_ltb.
  - rewrite Forall_forall in Hall. now apply Hall.
  - intros Heq. apply Hnotin. rewrite Heq. now apply list_elem_of_fmap_2.
Qed.

Section UrlFacts.
Context `{External}.

(** The loop over the filters appends their fragments one by one. *)
Lemma add_filters_fragments items :
  forall url,
    add_filters url items =
    (frs ← filter_fragments items; Ok (url +:+ join frs)).
Proof.
  induction items as [|[attr value] rest IH]; intros url; simpl.
  - now rewrite append_empty_r.
  - destruct (_parse_argvalue value) as [v|err]; simpl; [|reflexivity].
    rewrite IH. destruct (filter_fragments rest) as [frs|err]; simpl; [|reflexivity].
    now rewrite !append_assoc.
Qed.

Lemma filter_fragments_Forall2 items frs :
  filter_fragments items = Ok frs ->
  Forall2 (fun kv fr => exists v, _parse_argvalue kv.2 = Ok v /\
                                  fr = "&" +:+ kv.1 +:+ "=" +:+ v)
          items frs.
Proof.
  revert frs. induction items as [|[attr value] rest IH]; intros frs; simpl.
  - intros [= <-]. constructor.
  - destruct (_parse_argvalue value) as [v|err] eqn:Hv; simpl; [|discriminate].
    destruct (filter_fragments rest) as [frs'|err]; simpl; [|discriminate].
    intros [= <-]. constructor; [|now apply IH].
    exists v. now split.
Qed.

Lemma build_url_code_order c s e geom kw :
  build_url c s e geom kw = url_in_code_order c s e geom kw.
Proof.
  unfold build_url, url_in_code_order, url_of, base_path.
  destruct (if truthy c then urljoin_value API_URL c else Ok API_URL) as [u|err];
    simpl; [|reflexivity].
  unfold start_fragments.
  destruct (truthy s); simpl; [destruct (_parse_date s); simpl; [|reflexivity]|];
  (unfold end_fragments;
   destruct (truthy e); simpl;
   [destruct (_parse_date e) as [d|]; simpl;
    [destruct (_add_time d); simpl; [|reflexivity]|reflexivity]|]);
  (unfold geometry_fragments;
   destruct (truthy geom); simpl;
   [destruct (_convert_wkt geom); simpl; [|reflexivity]|]);
  rewrite add_filters_fragments;
  (destruct (filter_fragments (sorted_items kw)) as [frs|]; simpl; [|reflexivity]);
  rewrite ?join_app; simpl; rewrite ?append_assoc; reflexivity.
Qed.

(** C6, as the code has it: the URL is the base path followed by the
    fragments in a fixed order: the start date, the end date, the
    geometry, the extra filters in ascending order of their keys, and last
    the page size.  (The spec's data model puts the geometry after the
    filters.) *)
Theorem url_fragments_in_code_order c s e geom kw :
  build_url c s e geom kw =
  url_of (base_path c)
         [start_fragments s; end_fragments e; geometry_fragments geom;
          filter_fragments (sorted_items kw); max_records_fragments] /\
  sorted_items kw ≡ₚ map_to_list kw /\
  StronglySorted (fun p q => String.ltb p.1 q.1 = true) (sorted_items kw).
Proof.
  split; [apply build_url_code_order|].
  split; [apply sorted_items_Permutation | apply sorted_items_ascending].
Qed.

(** C7: the fragments of the extra filters stand in the URL in ascending
    order of their keys, just before the page size: they are the
    fragments [&key=value] of the items of the mapping, each once, laid
    out by strictly ascending key.  For the filters b=x and a=y the URL
    holds [&a=y&b=x]. *)
Theorem filters_sorted_by_key c s e geom kw url :
  build_url c s e geom kw = Ok url ->
  (exists pre frs,
     url = pre +:+ join frs +:+ "&maxRecords=1000" /\
     Forall2 (fun kv fr => exists v, _parse_argvalue kv.2 = Ok v /\
                                     fr = "&" +:+ kv.1 +:+ "=" +:+ v)
             (sorted_items kw) frs /\
     sorted_items kw ≡ₚ map_to_list kw /\
     StronglySorted (fun p q => String.ltb p.1 q.1 = true) (sorted_items kw)) /\
  build_url PyNone PyNone PyNone PyNone
            (<["b" := PyStr "x"]> (<["a" := PyStr "y"]> ∅)) =
  Ok "http://finder.creodias.eu/resto/api/collections//search.json?&a=y&b=x&maxRecords=1000".
Proof.
  intros Hurl. split; [|vm_compute; reflexivity].
  rewrite build_url_code_order in Hurl.
  unfold url_in_code_order, url_of in Hurl.
  destruct (base_path c) as [b|]; simpl in Hurl; [|discriminate].
  destruct (start_fragments s) as [fs|]; simpl in Hurl; [|discriminate].
  destruct (end_fragments e) as [fe|]; simpl in Hurl; [|discriminate].
  destruct (geometry_fragments geom) as [fg|]; simpl in Hurl; [|discriminate].
  destruct (filter_fragments (sorted_items kw)) as [frs|] eqn:Hfrs;
    simpl in Hurl; [|discriminate].
  injection Hurl as <-.
  exists (b +:+ join (fs ++ fe ++ fg)), frs.
  split; [|split; [now apply filter_fragments_Forall2|split]].
  - rewrite !join_app. simpl. now rewrite !append_assoc.
  - apply sorted_items_Permutation.
  - apply sorted_items_ascending.
Qed.

(** C10: a falsy collection, start date, end date or geometry is treated
    as absent: the URL, or the exception, is the one obtained with [None]
    in its place, so no fragment is written for it and it is not
    validated; with all four falsy and no filter the URL is the bare
    search URL. *)
Theorem falsy_arguments_are_absent c s e geom kw v :
  truthy v = false ->
  build_url v s e geom kw = build_url PyNone s e geom kw /\
  build_url c v e geom kw = build_url c PyNone e geom kw /\
  build_url c s v geom kw = build_url c s PyNone geom kw /\
  build_url c s e v kw = build_url c s e PyNone kw /\
  build_url v v v v ∅ =
  Ok "http://finder.creodias.eu/resto/api/collections//search.json?&maxRecords=1000".
Proof.
  intros Hv. unfold build_url. rewrite Hv. simpl.
  repeat split; vm_compute; reflexivity.
Qed.

End UrlFacts.

Module EncoderRuns.
Import Demo.

Lemma parse_argvalue_string_witness :
_parse_argvalue (PyStr "  a b  ") = Ok "a\ b".
Proof.
apply (proj1 (proj2 (parse_argvalue_string "  a b  "))).
- vm_compute. reflexivity.
- vm_compute. lia.
Defined.

(** C5, as the spec words it, fails on a tab: the tab is replaced by a
  space, not kept behind the backslash. *)
Lemma parse_argvalue_tab_not_prefixed :
bracketed (strip tabbed) = false /\
_parse_argvalue (PyStr tabbed) = Ok "a\ b" /\
_parse_argvalue (PyStr tabbed) <> Ok (whitespace_prefixed (strip tabbed)).
Proof. repeat split. vm_compute. discriminate. Qed.

(** A pair is written as a range; a list of another length is refused. *)
Example parse_argvalue_pair :
  _parse_argvalue (PyList [PyInt 1; PyInt 2]) = Ok "[1,2]" /\
  _parse_argvalue (PyList [PyInt 1; PyInt 2; PyInt 3]) =
  Raise (ValueError "Invalid number of elements in list. Expected 2, received 3").
Proof. split; reflexivity. Qed.

(** Only the first eight whitespace characters are replaced: [re.M], the
  value 8, is passed where [re.sub] takes its count. *)
Example parse_argvalue_ninth_space :
_parse_argvalue (PyStr "1 2 3 4 5 6 7 8 9 10") = Ok "1\ 2\ 3\ 4\ 5\ 6\ 7\ 8\ 9 10".
Proof. reflexivity. Qed.

Lemma filters_sorted_by_key_witness :
  exists pre frs,
    url_ba = pre +:+ join frs +:+ "&maxRecords=1000" /\
    Forall2 (fun kv fr => exists v, _parse_argvalue kv.2 = Ok v /\
                                    fr = "&" +:+ kv.1 +:+ "=" +:+ v)
            (sorted_items filters_ba) frs /\
    sorted_items filters_ba ≡ₚ map_to_list filters_ba /\
    StronglySorted (fun p q => String.ltb p.1 q.1 = true) (sorted_items filters_ba).
Proof.
  apply (filters_sorted_by_key
           (PyStr "Sentinel1") (PyStr "14-22-32") (PyStr "14-22-32")
           (PyStr "POINT (1 2)") filters_ba url_ba).
  vm_compute. reflexivity.
Defined.

Lemma falsy_arguments_are_absent_witness :
  build_url (PyStr "") PyNone PyNone PyNone filters_ba =
  build_url PyNone PyNone PyNone PyNone filters_ba /\
  build_url (PyStr "") (PyStr "") (PyStr "") (PyStr "") ∅ =
  Ok "http://finder.creodias.eu/resto/api/collections//search.json?&maxRecords=1000".
Proof.
  assert (Hfalsy : truthy (PyStr "") = false) by reflexivity.
  pose proof (falsy_arguments_are_absent
                PyNone PyNone PyNone PyNone filters_ba (PyStr "") Hfalsy)
    as (Hc & _ & _ & _ & _).
  pose proof (falsy_arguments_are_absent
                PyNone PyNone PyNone PyNone ∅ (PyStr "") Hfalsy)
    as (_ & _ & _ & _ & Hall).
  split; [exact Hc | exact Hall].
Defined.

(** C6, as the spec's data model words it, fails: with a geometry and a
    filter, the geometry comes before the filter, not after it. *)
Lemma geometry_before_filters :
  build_url PyNone PyNone PyNone (PyStr "POINT (1 2)") filters_ba =
  Ok ("http://finder.creodias.eu/resto/api/collections//search.json?"
      +:+ "&geometry=POINT(1+2)&a=y&b=x&maxRecords=1000") /\
  url_in_spec_order PyNone PyNone PyNone (PyStr "POINT (1 2)") filters_ba =
  Ok ("http://finder.creodias.eu/resto/api/collections//search.json?"
      +:+ "&a=y&b=x&geometry=POINT(1+2)&maxRecords=1000") /\
  build_url PyNone PyNone PyNone (PyStr "POINT (1 2)") filters_ba <>
  url_in_spec_order PyNone PyNone PyNone (PyStr "POINT (1 2)") filters_ba.
Proof. repeat split. vm_compute. discriminate. Qed.

End EncoderRuns.

(** * Further properties *)

(** ** The page loop: failures, bounds and the returned mapping *)

Section PaginationMore.
Context `{External} {World : Type}.
Variable requests_get : string -> World -> response * World.

Lemma raise_for_status_failure r :
  success r = false -> raise_for_status r = Raise (HTTPError (status_code r)).
Proof.
  unfold success, raise_for_status.
  destruct (_ && _); [reflexivity | discriminate].
Qed.

(** The run up to the page numbered [k], after [k] pages with items. *)
Lemma query_reaches c s e geom kw url w (k : nat) rs rz w' :
  build_url c s e geom kw = Ok url ->
  (k < 1000)%nat ->
  serve requests_get (map (url_of_page url) (seq 0 (S k))) w = (rs ++ [rz], w') ->
  forallb nonempty_page rs = true ->
  exists w1,
    requests_get (url_of_page url k) w1 = (rz, w') /\
    query requests_get c s e geom kw w =
    prepend (map (url_of_page url) (seq 0 k))
            (page_loop requests_get url (k :: seq (S k) (999 - k))
                       (merge_features ∅ (features_of rs)) w1).
Proof.
  intros Hurl Hk Hserve Hall.
  unfold query. rewrite Hurl.
  rewrite (seq_S k 0), map_app in Hserve.
  replace 1000%nat with (k + (1 + (999 - k)))%nat by lia.
  rewrite seq_app. simpl seq at 2.
  rewrite serve_app in Hserve.
  destruct (serve requests_get (map (url_of_page url) (seq 0 k)) w)
    as [rs0 w1] eqn:Hs0.
  simpl in Hserve.
  destruct (requests_get (url_of_page url k) w1) as [r w2] eqn:Hget.
  injection Hserve as Hrs <-.
  apply app_inj_tail in Hrs as [-> ->].
  exists w1. split; [exact Hget|].
  now rewrite (page_loop_continue _ _ _ _ _ _ _ _ (seq_below_999 k ltac:(lia)) Hs0 Hall).
Qed.

(** X1: a response with an error status (400 to 599) ends the run at
    once: after [k] pages with items, the failing response [rz] makes
    [query] raise the HTTP error of its status; no mapping is returned,
    whatever was merged before, and no further page is requested. *)
Theorem query_http_error c s e geom kw url w (k : nat) rs rz w' :
  build_url c s e geom kw = Ok url ->
  (k < 1000)%nat ->
  serve requests_get (map (url_of_page url) (seq 0 (S k))) w = (rs ++ [rz], w') ->
  forallb nonempty_page rs = true ->
  success rz = false ->
  query requests_get c s e geom kw w =
  mk_outcome (Raise (HTTPError (status_code rz))) w'
             (map (url_of_page url) (seq 0 (S k))).
Proof.
  intros Hurl Hk Hserve Hall Hfail.
  destruct (query_reaches _ _ _ _ _ _ _ _ _ _ _ Hurl Hk Hserve Hall)
    as (w1 & Hget & ->).
  cbn [page_loop]. rewrite Hget, (raise_for_status_failure _ Hfail).
  unfold prepend, request_made. cbn [returned world requested].
  now rewrite (seq_S k 0), map_app.
Qed.

Lemma url_of_page_inj url : Inj (=) (=) (url_of_page url).
Proof.
  intros p q Heq. unfold url_of_page in Heq.
  apply (inj (String.app url)) in Heq.
  apply (inj (String.app "&page=")) in Heq.
  apply (inj pretty) in Heq. lia.
Qed.

(** X2: whatever the transport answers, a query requests the pages in
    order, page=1, page=2 and so on, at most 1000 of them, each with the
    built URL in front; when the URL cannot be built it requests
    nothing. *)
Theorem query_requests_in_page_order c s e geom kw w :
  exists n : nat,
    (n <= 1000)%nat /\
    (forall url,
        build_url c s e geom kw = Ok url ->
        requested (query requests_get c s e geom kw w) =
        map (fun i => url +:+ "&page=" +:+ pretty i) (seq 1 n)) /\
    (forall err,
        build_url c s e geom kw = Raise err ->
        requested (query requests_get c s e geom kw w) = []).
Proof.
  unfold query. destruct (build_url c s e geom kw) as [url|err].
  - destruct (page_loop_requests requests_get url (seq 0 1000) ∅ w)
      as (n & Hn & Hreq).
    rewrite length_seq in Hn.
    exists n. split; [exact Hn|]. split; [|discriminate].
    intros url' [= <-].
    rewrite Hreq, take_seq, Nat.min_l by exact Hn. apply pages_from_one.
  - exists 0%nat. split; [lia|]. split; [discriminate | reflexivity].
Qed.

(** X3: no URL is requested twice in a run. *)
Theorem query_never_repeats_a_request c s e geom kw w :
  NoDup (requested (query requests_get c s e geom kw w)).
Proof.
  unfold query. destruct (build_url c s e geom kw) as [url|err].
  - destruct (page_loop_requests requests_get url (seq 0 1000) ∅ w)
      as (n & _ & ->).
    pose proof (url_of_page_inj url) as Hinj.
    apply (NoDup_fmap_2 (url_of_page url)).
    rewrite take_seq. apply NoDup_seq.
  - constructor.
Qed.

(** X4: the mapping returned on normal termination holds, for every id,
    the last record with that id among the features of the merged pages,
    in page order, and nothing for an id no merged page returned. *)
Theorem query_mapping_lookup c s e geom kw url w (k : nat) rs rz w' :
  build_url c s e geom kw = Ok url ->
  (k < 1000)%nat ->
  serve requests_get (map (url_of_page url) (seq 0 (S k))) w = (rs ++ [rz], w') ->
  forallb nonempty_page rs = true ->
  success rz = true ->
  itemsPerPage (json rz) = 0 ->
  exists m,
    returned (query requests_get c s e geom kw w) = Ok m /\
    forall key, m !! key = last_with_id key (features_of rs).
Proof.
  intros Hurl Hk Hserve Hall Hok Hzero.
  rewrite (query_run requests_get _ _ _ _ _ _ _ _ _ _ _ Hurl Hk Hserve Hall Hok Hzero).
  eexists. split; [reflexivity|]. intros key.
  rewrite merge_features_lookup, lookup_empty.
  now destruct (last_with_id key (features_of rs)).
Qed.

Lemma merge_features_size fs :
  forall acc : gmap string feature,
    (size (merge_features acc fs) <= size acc + length fs)%nat /\
    (NoDup (feature_id <$> fs) ->
     (forall f, f ∈ fs -> acc !! feature_id f = None) ->
     size (merge_features acc fs) = (size acc + length fs)%nat).
Proof.
  induction fs as [|x fs IH]; intros acc.
  - simpl. split; [lia | intros _ _; lia].
  - change (merge_features acc (x :: fs))
      with (merge_features (<[feature_id x := x]> acc) fs).
    destruct (IH (<[feature_id x := x]> acc)) as [Hle Heq]. split.
    + destruct (acc !! feature_id x) as [y|] eqn:Hx.
      * rewrite map_size_insert_Some in Hle by (rewrite Hx; eauto). simpl. lia.
      * rewrite map_size_insert_None in Hle by exact Hx. simpl. lia.
    + intros Hnd Hfresh. rewrite fmap_cons in Hnd.
      apply NoDup_cons in Hnd as [Hx Hnd].
      rewrite Heq.
      * rewrite map_size_insert_None; [simpl; lia|].
        apply Hfresh. apply elem_of_cons. now left.
      * exact Hnd.
      * intros f Hf. rewrite lookup_insert_ne.
        -- apply Hfresh. apply elem_of_cons. now right.
        -- intros Heq'. apply Hx. rewrite Heq'. now apply list_elem_of_fmap_2.
Qed.

(** X5: the keys of the returned mapping are exactly the ids of the
    features of the merged pages, each entry is a feature of those pages
    stored under its own id, and the mapping has at most as many entries
    as there are features: exactly as many when the ids are distinct. *)
Theorem query_mapping_keys c s e geom kw url w (k : nat) rs rz w' :
  build_url c s e geom kw = Ok url ->
  (k < 1000)%nat ->
  serve requests_get (map (url_of_page url) (seq 0 (S k))) w = (rs ++ [rz], w') ->
  forallb nonempty_page rs = true ->
  success rz = true ->
  itemsPerPage (json rz) = 0 ->
  exists m,
    returned (query requests_get c s e geom kw w) = Ok m /\
    (forall key f, m !! key = Some f -> feature_id f = key /\ f ∈ features_of rs) /\
    (forall f, f ∈ features_of rs -> is_Some (m !! feature_id f)) /\
    (size m <= length (features_of rs))%nat /\
    (NoDup (feature_id <$> features_of rs) -> size m = length (features_of rs)).
Proof.
  intros Hurl Hk Hserve Hall Hok Hzero.
  rewrite (query_run requests_get _ _ _ _ _ _ _ _ _ _ _ Hurl Hk Hserve Hall Hok Hzero).
  eexists. split; [reflexivity|].
  destruct (merge_features_size (features_of rs) ∅) as [Hle Heq].
  rewrite map_size_empty in Hle, Heq.
  split; [|split; [|split]].
  - intros key f. rewrite merge_features_lookup, lookup_empty.
    destruct (last_with_id key (features_of rs)) as [g|] eqn:Hg; [|discriminate].
    intros [= <-]. now apply last_with_id_elem.
  - intros f Hf. rewrite merge_features_lookup, lookup_empty.
    destruct (last_with_id (feature_id f) (features_of rs)) as [g|] eqn:Hg; [eauto|].
    exfalso. unfold last_with_id in Hg. apply last_None in Hg.
    assert (Hin : f ∈ filter (fun g => feature_id g = feature_id f) (features_of rs))
      by now apply list_elem_of_filter.
    rewrite Hg in Hin. inversion Hin.
  - exact Hle.
  - intros Hnd. apply Heq; [exact Hnd|]. intros f _. apply lookup_empty.
Qed.

End PaginationMore.

(** ** The end of the day *)

(** The two cases of [_add_time], by the time of day in seconds. *)
Lemma add_time_cases (d : datetime) :
  valid_datetime d ->
  (seconds_of_day d = 0 /\
   _add_time d = Ok (mk_datetime (ordinal d) 23 59 59 (microsecond d) (tzinfo d))) \/
  (seconds_of_day d <> 0 /\ _add_time d = Ok d).
Proof.
  intros (Hday & Hh & Hm & Hs & Hus). unfold _add_time, seconds_of_day.
  destruct ((hour d =? 0) && (minute d =? 0) && (second d =? 0)) eqn:Hz.
  - left. apply andb_true_iff in Hz as [Hz Hsec].
    apply andb_true_iff in Hz as [Hhour Hmin].
    apply Z.eqb_eq in Hhour, Hmin, Hsec.
    split; [lia|].
    destruct d as [day h m sec us tz]. simpl in *. subst h m sec.
    now apply datetime_add_end_of_day.
  - right. split; [|reflexivity].
    apply andb_false_iff in Hz as [Hz|Hsec];
      [apply andb_false_iff in Hz as [Hhour|Hmin]|];
      (apply Z.eqb_neq in Hhour || apply Z.eqb_neq in Hmin || apply Z.eqb_neq in Hsec);
      lia.
Qed.

(** X9: on a valid timestamp [_add_time] never raises; its result is a
    valid timestamp of the same day, with the same microseconds and time
    zone, not earlier than its argument, and never at 00:00:00. *)
Theorem add_time_result (d : datetime) :
  valid_datetime d ->
  exists d',
    _add_time d = Ok d' /\
    valid_datetime d' /\
    ordinal d' = ordinal d /\
    microsecond d' = microsecond d /\
    tzinfo d' = tzinfo d /\
    seconds_of_day d <= seconds_of_day d' /\
    seconds_of_day d' <> 0.
Proof.
  intros Hv. pose proof Hv as (Hday & Hh & Hm & Hs & Hus).
  destruct (add_time_cases d Hv) as [(Hz & Hadd)|(Hnz & Hadd)].
  - eexists. split; [exact Hadd|].
    unfold valid_datetime, seconds_of_day in *. simpl.
    repeat split; try reflexivity; lia.
  - exists d. split; [exact Hadd|].
    unfold valid_datetime, seconds_of_day in *.
    repeat split; try reflexivity; lia.
Qed.

(** ** Filters and geometry in the built URL *)

Section UrlMore.
Context `{External} {World : Type}.
Variable requests_get : string -> World -> response * World.

Lemma parse_argvalue_not_encodable v :
  encodable v = false -> exists err, _parse_argvalue v = Raise err.
Proof.
  destruct v as [| | | |l|l]; simpl; try discriminate; eauto;
    destruct l as [|a [|b [|c l]]]; try discriminate; eauto.
Qed.

(** A URL is built only when every filter value can be encoded. *)
Lemma build_url_filters_encodable c s e geom kw url key v :
  build_url c s e geom kw = Ok url ->
  kw !! key = Some v ->
  encodable v = true.
Proof.
  intros Hurl Hkey.
  rewrite build_url_code_order in Hurl.
  unfold url_in_code_order, url_of in Hurl.
  destruct (base_path c) as [b|]; simpl in Hurl; [|discriminate].
  destruct (start_fragments s) as [fs|]; simpl in Hurl; [|discriminate].
  destruct (end_fragments e) as [fe|]; simpl in Hurl; [|discriminate].
  destruct (geometry_fragments geom) as [fg|]; simpl in Hurl; [|discriminate].
  destruct (filter_fragments (sorted_items kw)) as [frs|] eqn:Hfrs;
    simpl in Hurl; [|discriminate].
  apply filter_fragments_Forall2 in Hfrs.
  assert (Hin : (key, v) ∈ sorted_items kw).
  { rewrite sorted_items_Permutation. now apply elem_of_map_to_list. }
  apply list_elem_of_lookup in Hin as [i Hi].
  destruct (Forall2_lookup_l _ _ _ _ _ Hfrs Hi) as (fr & _ & v' & Hv & _).
  simpl in Hv. destruct (encodable v) eqn:Henc; [reflexivity|].
  apply parse_argvalue_not_encodable in Henc as [err Herr]. congruence.
Qed.

(** X6: when some extra filter has a value that is neither a string nor
    a list or tuple of two elements, [query] raises before the first
    request: nothing is sent and the world is as it was. *)
Theorem query_refuses_unencodable_filter c s e geom kw w key v :
  kw !! key = Some v ->
  encodable v = false ->
  exists err, query requests_get c s e geom kw w = mk_outcome (Raise err) w [].
Proof.
  intros Hkey Henc. unfold query.
  destruct (build_url c s e geom kw) as [url|err] eqn:Hurl; [|eauto].
  rewrite (build_url_filters_encodable _ _ _ _ _ _ _ _ Hurl Hkey) in Henc.
  discriminate.
Qed.

(** X7: a truthy geometry that is not a string is refused with the
    error of [_convert_wkt] as soon as the collection and the dates are
    accepted, whatever the extra filters hold: the geometry is encoded
    before any filter value is looked at. *)
Theorem build_url_refuses_geometry c s e geom kw b fs fe :
  base_path c = Ok b ->
  start_fragments s = Ok fs ->
  end_fragments e = Ok fe ->
  truthy geom = true ->
  (forall g, geom <> PyStr g) ->
  build_url c s e geom kw =
  Raise (ValueError "Geometry must be in well-known text format").
Proof.
  intros Hb Hs He Htruthy Hnot.
  rewrite build_url_code_order. unfold url_in_code_order, url_of.
  rewrite Hb. simpl. rewrite Hs. simpl. rewrite He. simpl.
  unfold geometry_fragments. rewrite Htruthy.
  destruct geom; try reflexivity. now destruct (Hnot s0).
Qed.

(** X8: the start date is written as given and a midnight end date is
    moved to the end of its day: for a valid [datetime] at 00:00:00 given
    as both bounds, the URL holds its [isoformat] as startDate and the
    [isoformat] of 23:59:59 of the same day as completionDate; an end date
    with a time of day is written as given. *)
Theorem build_url_dates (d : datetime) kw :
  valid_datetime d ->
  exists end_date,
    _add_time d = Ok end_date /\
    (seconds_of_day d = 0 ->
     end_date = mk_datetime (ordinal d) 23 59 59 (microsecond d) (tzinfo d)) /\
    (seconds_of_day d <> 0 -> end_date = d) /\
    build_url PyNone (PyDatetime d) (PyDatetime d) PyNone kw =
    (url ← add_filters
           (API_URL +:+ "/search.json?" +:+ "&startDate=" +:+ isoformat d
            +:+ "&completionDate=" +:+ isoformat end_date)
           (sorted_items kw);
     Ok (url +:+ "&maxRecords=1000")).
Proof.
  intros Hv.
  destruct (add_time_cases d Hv) as [(Hz & Hadd)|(Hnz & Hadd)].
  - exists (mk_datetime (ordinal d) 23 59 59 (microsecond d) (tzinfo d)).
    split; [exact Hadd|]. split; [reflexivity|]. split; [contradiction|].
    unfold build_url. simpl. rewrite Hadd. simpl.
    now rewrite !append_assoc.
  - exists d.
    split; [exact Hadd|]. split; [contradiction|]. split; [reflexivity|].
    unfold build_url. simpl. rewrite Hadd. simpl.
    now rewrite !append_assoc.
Qed.

End UrlMore.

(** ** The encoded geometry *)

Lemma prefix_occurs old s x :
  String.prefix old s = true -> occurs x old -> occurs x s.
Proof.
  unfold occurs. revert s. induction old as [|o old IH]; intros s Hp Hx.
  - destruct Hx.
  - destruct s as [|c s]; [discriminate|]. simpl in Hp.
    destruct (ascii_dec o c) as [->|]; [|discriminate].
    destruct Hx as [<-|Hx]; [now left | right; now apply IH].
Qed.

(** Without an occurrence of a character of [old], nothing is replaced. *)
Lemma replace_absent old new count x s :
  occurs x old -> ~ occurs x s -> replace s old new count = s.
Proof.
  intros Hold. unfold replace. induction s as [|c s IH]; intros Hs; [reflexivity|].
  cbn [replace_from].
  destruct (String.prefix old (String c s)) eqn:Hp.
  - exfalso. apply Hs. now apply (prefix_occurs old).
  - rewrite andb_false_r. f_equal. apply IH.
    intros Hin. apply Hs. now right.
Qed.

Lemma prefix_empty s : String.prefix "" s = true.
Proof. now destruct s. Qed.

Lemma replace_space_by_plus s : ~ occurs " " (replace s " " "+" None).
Proof.
  unfold replace, occurs. induction s as [|c s IH]; [intros []|].
  cbn [replace_from String.prefix andb].
  destruct (ascii_dec " " c) as [<-|Hne].
  - rewrite prefix_empty. intros [Habs|Hin]; [discriminate Habs | now apply IH].
  - intros [Heq|Hin]; [now apply Hne | now apply IH].
Qed.

(** X11: the encoding of a geometry string never holds a space. *)
Theorem convert_wkt_no_space (g : string) :
  exists r, _convert_wkt (PyStr g) = Ok r /\ ~ occurs " " r.
Proof.
  eexists. split; [reflexivity|]. apply replace_space_by_plus.
Qed.

(** X12: a geometry string without a space is returned as it is. *)
Theorem convert_wkt_without_space (g : string) :
  ~ occurs " " g -> _convert_wkt (PyStr g) = Ok g.
Proof.
  intros Hg. unfold _convert_wkt.
  rewrite (replace_absent ", " "," None " " g) by (simpl; tauto || (right; now left)).
  rewrite (replace_absent " " "" (Some 1%nat) " " g) by (simpl; tauto || now left).
  rewrite (replace_absent " " "+" None " " g) by (simpl; tauto || now left).
  reflexivity.
Qed.

(** ** The encoded filter value *)

Lemma rstrip_rstrip s : rstrip (rstrip s) = rstrip s.
Proof.
  induction s as [|c s IH]; [reflexivity|].
  cbn [rstrip].
  destruct (isspace c && String.eqb (rstrip s) "") eqn:Hc; [reflexivity|].
  cbn [rstrip]. now rewrite IH, Hc.
Qed.

Lemma lstrip_head s :
  lstrip s = "" \/ exists c r, lstrip s = String c r /\ isspace c = false.
Proof.
  induction s as [|c s IH]; [now left|].
  cbn [lstrip]. destruct (isspace c) eqn:Hc; [exact IH|].
  right. now exists c, s.
Qed.

Lemma strip_strip s : strip (strip s) = strip s.
Proof.
  unfold strip.
  destruct (lstrip_head s) as [->|(c & r & -> & Hc)]; [reflexivity|].
  cbn [rstrip]. rewrite Hc. cbn [andb lstrip]. rewrite Hc.
  change (rstrip (String c (rstrip r)) = String c (rstrip r)).
  cbn [rstrip]. now rewrite Hc, rstrip_rstrip.
Qed.

Lemma strip_without_whitespace s : count_whitespace s = 0%nat -> strip s = s.
Proof.
  unfold strip. induction s as [|c s IH]; [reflexivity|].
  cbn [count_whitespace lstrip rstrip].
  destruct (isspace c) eqn:Hc; [discriminate|]. intros Hs.
  cbn [rstrip]. rewrite Hc. cbn [andb]. f_equal.
  specialize (IH Hs). destruct s as [|c' s]; [reflexivity|].
  cbn [count_whitespace] in Hs. cbn [lstrip] in IH.
  destruct (isspace c'); [discriminate Hs | exact IH].
Qed.

Lemma escaped_without_whitespace s :
  count_whitespace s = 0%nat -> whitespace_to_escaped_space s = s.
Proof.
  induction s as [|c s IH]; [reflexivity|].
  cbn [count_whitespace whitespace_to_escaped_space].
  destruct (isspace c); [discriminate|]. intros Hs. now rewrite IH.
Qed.

Section ArgvalueMore.
Context `{External}.

Lemma parse_argvalue_str s :
  _parse_argvalue (PyStr s) =
  Ok (if bracketed (strip s) then strip s
      else sub_upto isspace "\ " (Some 8%nat) (strip s)).
Proof. unfold _parse_argvalue. now destruct (bracketed (strip s)). Qed.

(** X13: whitespace around a string value does not matter: the value and
    its stripped form are encoded alike. *)
Theorem parse_argvalue_ignores_surrounding_whitespace (s : string) :
  _parse_argvalue (PyStr (strip s)) = _parse_argvalue (PyStr s).
Proof. now rewrite !parse_argvalue_str, strip_strip. Qed.

(** X14: a string value without any whitespace character is returned as
    it is, bracketed or not. *)
Theorem parse_argvalue_without_whitespace (s : string) :
  count_whitespace s = 0%nat -> _parse_argvalue (PyStr s) = Ok s.
Proof.
  intros Hs. rewrite parse_argvalue_str, (strip_without_whitespace s Hs).
  destruct (bracketed s); [reflexivity|].
  rewrite sub_upto_within_limit, sub_upto_all, escaped_without_whitespace;
    [reflexivity | exact Hs |].
  rewrite <- count_whitespace_filter, Hs. lia.
Qed.

Lemma sub_upto_exhausted p repl s : sub_upto p repl (Some 0%nat) s = s.
Proof.
  induction s as [|c s IH]; [reflexivity|].
  cbn [sub_upto]. destruct (p c); [reflexivity | now rewrite IH].
Qed.

Lemma sub_upto_split a b :
  forall n : nat,
    count_whitespace a = n ->
    sub_upto isspace "\ " (Some n) (a +:+ b) = whitespace_to_escaped_space a +:+ b.
Proof.
  induction a as [|c a IH]; intros n Hn.
  - cbn [count_whitespace] in Hn. subst n. apply sub_upto_exhausted.
  - change (String c a +:+ b) with (String c (a +:+ b)).
    cbn [count_whitespace sub_upto whitespace_to_escaped_space] in *.
    destruct (isspace c).
    + destruct n as [|n]; [discriminate|]. rewrite IH by (simpl in Hn; lia).
      reflexivity.
    + rewrite IH by exact Hn. reflexivity.
Qed.

(** X15: in a string value that is not bracketed, the whitespace
    characters after the eighth are left as they are: when the stripped
    value is [a] followed by [b] and [a] holds eight whitespace
    characters, the result is [a] with its whitespace replaced, followed
    by [b] unchanged. *)
Theorem parse_argvalue_after_eighth_whitespace (s a b : string) :
  bracketed (strip s) = false ->
  strip s = a +:+ b ->
  count_whitespace a = 8%nat ->
  _parse_argvalue (PyStr s) = Ok (whitespace_to_escaped_space a +:+ b).
Proof.
  intros Hb Hsplit Ha.
  now rewrite parse_argvalue_str, Hb, Hsplit, (sub_upto_split a b 8 Ha).
Qed.

(** X16: a list or tuple whose length is not two is refused with a
    [ValueError] that reports its length. *)
Theorem parse_argvalue_wrong_length (l : list pyval) :
  length l <> 2%nat ->
  _parse_argvalue (PyList l) =
  Raise (ValueError ("Invalid number of elements in list. Expected 2, received "
                     +:+ pretty (length l))) /\
  _parse_argvalue (PyTuple l) =
  Raise (ValueError ("Invalid number of elements in list. Expected 2, received "
                     +:+ pretty (length l))).
Proof.
  intros Hlen. destruct l as [|a [|b [|c l]]]; [| |now destruct Hlen|];
    split; reflexivity.
Qed.

End ArgvalueMore.

(** ** The strings [_parse_date] accepts *)

Lemma in_ends_digit s t :
  In t (Re.ends Re.digit s) -> exists c, s = String c t /\ is_digit c = true.
Proof.
  intros Hin. apply in_eat in Hin as (c & -> & Hc).
  exists c. split; [reflexivity|].
  cbn [existsb] in Hc. rewrite orb_false_r in Hc. exact Hc.
Qed.

Lemma in_ends_digit_lit n s t :
  In t (Re.ends (Re.Seq Re.digit (Re.Lit n)) s) ->
  exists c, s = String c (String n t) /\ is_digit c = true.
Proof.
  intros Hin. apply in_ends_Seq in Hin as (m & Hm & Hin).
  apply in_ends_Lit in Hin as ->.
  apply in_ends_digit in Hm as (c & -> & Hc). now exists c.
Qed.

(** A string the pattern accepts starts with a digit, [4-], a digit,
    [2-], a digit and [2]. *)
Lemma date_pattern_prefix s :
  Re.matches date_pattern s = true ->
  exists a b c rest,
    s = date_text a b c +:+ rest /\
    is_digit a = true /\ is_digit b = true /\ is_digit c = true.
Proof.
  intros Hm. apply matches_end in Hm as (t & Ht).
  unfold date_pattern in Ht. cbn [Re.body Re.seq_of] in Ht.
  apply in_ends_Seq in Ht as (m1 & H1 & Ht).
  apply in_ends_digit_lit in H1 as (a & -> & Ha).
  apply in_ends_Seq in Ht as (m2 & H2 & Ht).
  apply in_ends_Lit in H2 as ->.
  apply in_ends_Seq in Ht as (m3 & H3 & Ht).
  apply in_ends_digit_lit in H3 as (b & -> & Hb).
  apply in_ends_Seq in Ht as (m4 & H4 & Ht).
  apply in_ends_Lit in H4 as ->.
  apply in_ends_Seq in Ht as (m5 & H5 & _).
  apply in_ends_digit_lit in H5 as (c & -> & Hc).
  now exists a, b, c, m5.
Qed.

Lemma ends_digit_lit n c rest :
  is_digit c = true ->
  Re.ends (Re.Seq Re.digit (Re.Lit n)) (String c (String n rest)) = [rest].
Proof.
  intros Hc. cbn [Re.ends Re.digit Re.eat existsb].
  change (Re.in_item c (Re.CRange "0" "9")) with (is_digit c).
  rewrite Hc. cbn [orb flat_map Re.ends Re.eat].
  now rewrite Ascii.eqb_refl.
Qed.

Lemma ends_Seq_single r1 r2 s m :
  Re.ends r1 s = [m] -> Re.ends (Re.Seq r1 r2) s = Re.ends r2 m.
Proof. intros Hr. cbn [Re.ends]. rewrite Hr. cbn [flat_map]. apply app_nil_r. Qed.

Lemma ends_Lit_head n rest : Re.ends (Re.Lit n) (String n rest) = [rest].
Proof. cbn [Re.ends Re.eat]. now rewrite Ascii.eqb_refl. Qed.

Lemma date_pattern_date_text a b c tail :
  is_digit a = true -> is_digit b = true -> is_digit c = true ->
  Re.at_end tail = true ->
  Re.matches date_pattern (date_text a b c +:+ tail) = true.
Proof.
  intros Ha Hb Hc Htail.
  unfold Re.matches, date_pattern, date_text. cbn [Re.body Re.seq_of].
  change (String a (String "4" (String "-" (String b (String "2" (String "-"
            (String c (String "2" ""))))))) +:+ tail)
    with (String a (String "4" (String "-" (String b (String "2" (String "-"
            (String c (String "2" tail)))))))).
  rewrite (ends_Seq_single _ _ _ _ (ends_digit_lit "4" a _ Ha)).
  rewrite (ends_Seq_single _ _ _ _ (ends_Lit_head "-" _)).
  rewrite (ends_Seq_single _ _ _ _ (ends_digit_lit "2" b _ Hb)).
  rewrite (ends_Seq_single _ _ _ _ (ends_Lit_head "-" _)).
  rewrite (ends_Seq_single _ _ _ _ (ends_digit_lit "2" c _ Hc)).
  change (Re.ends (Re.Opt ?r) tail) with (Re.ends r tail ++ [tail]).
  rewrite existsb_app. cbn [existsb]. rewrite Htail. now rewrite orb_true_r.
Qed.

Section ParseDateMore.
Context `{External}.

(** X17: a string reaches the date parser only if it starts with a
    digit, [4-], a digit, [2-], a digit and [2]; every other string is
    refused with the [ValueError] of [_parse_date]. *)
Theorem parse_date_string_cases (s : string) :
  _parse_date (PyStr s) = Raise date_error \/
  (_parse_date (PyStr s) = dateutil_parse s /\
   exists a b c rest,
     s = date_text a b c +:+ rest /\
     is_digit a = true /\ is_digit b = true /\ is_digit c = true).
Proof.
  unfold _parse_date. destruct (Re.matches date_pattern s) eqn:Hm.
  - right. split; [reflexivity|]. now apply date_pattern_prefix.
  - now left.
Qed.

(** X18: the date-only text made of a digit, [4-], a digit, [2-], a
    digit and [2] is handed to the date parser, and so is the same text
    followed by one newline. *)
Theorem parse_date_accepts_date_text (a b c : ascii) :
  is_digit a = true -> is_digit b = true -> is_digit c = true ->
  _parse_date (PyStr (date_text a b c)) = dateutil_parse (date_text a b c) /\
  _parse_date (PyStr (date_text a b c +:+ Re.newline)) =
  dateutil_parse (date_text a b c +:+ Re.newline).
Proof.
  intros Ha Hb Hc. unfold _parse_date.
  rewrite (date_pattern_date_text a b c Re.newline Ha Hb Hc eq_refl).
  pose proof (date_pattern_date_text a b c "" Ha Hb Hc eq_refl) as Hm.
  rewrite append_empty_r in Hm. now rewrite Hm.
Qed.

End ParseDateMore.

(** ** Encoding twice, and ISO dates in a query *)

(** X19: encoding an encoded geometry changes nothing. *)
Theorem convert_wkt_twice (g r : string) :
  _convert_wkt (PyStr g) = Ok r -> _convert_wkt (PyStr r) = Ok r.
Proof.
  intros [= <-].
  set (r := replace (replace (replace g ", " "," None) " " "" (Some 1%nat)) " " "+" None).
  assert (Hr : ~ occurs " " r) by apply replace_space_by_plus.
  unfold _convert_wkt.
  rewrite (replace_absent ", " "," None " " r) by (exact Hr || (right; now left)).
  rewrite (replace_absent " " "" (Some 1%nat) " " r) by (exact Hr || now left).
  rewrite (replace_absent " " "+" None " " r) by (exact Hr || now left).
  reflexivity.
Qed.

Section IsoDates.
Context `{External} {World : Type}.
Variable requests_get : string -> World -> response * World.

(** X20: a query whose start date is a string of the ISO form
    YYYY-MM-DD, with or without a time, fails before the first request:
    once the collection is accepted, the [ValueError] of [_parse_date] is
    raised and nothing is sent. *)
Theorem query_refuses_iso_start_date c s e geom kw w b :
  base_path c = Ok b ->
  Re.matches iso_pattern s = true ->
  query requests_get c (PyStr s) e geom kw w = mk_outcome (Raise date_error) w [].
Proof.
  intros Hb Hiso.
  assert (Htruthy : truthy (PyStr s) = true).
  { apply iso_pattern_shape in Hiso as (c1 & c2 & c3 & rest & -> & _). reflexivity. }
  unfold query.
  rewrite build_url_code_order. unfold url_in_code_order, url_of.
  rewrite Hb. cbn [mbind result_bind bind]. cbn [in_order].
  unfold start_fragments. rewrite Htruthy.
  unfold _parse_date. rewrite (iso_pattern_excluded s Hiso).
  reflexivity.
Qed.

End IsoDates.

(** ** Further runs against the stand-ins *)

Module MoreRuns.
Import Demo.

Lemma query_http_error_witness :
  query canned PyNone PyNone PyNone PyNone no_filters [p1; p_err; p2] =
  mk_outcome (Raise (HTTPError 503)) [p2]
             (map (url_of_page base_url) (seq 0 2)).
Proof.
  apply (query_http_error
           canned PyNone PyNone PyNone PyNone no_filters base_url
           [p1; p_err; p2] 1 [p1] p_err [p2]).
  - vm_compute. reflexivity.
  - lia.
  - vm_compute. reflexivity.
  - vm_compute. reflexivity.
  - vm_compute. reflexivity.
Defined.

Lemma query_mapping_lookup_witness :
  exists m,
    returned (query canned PyNone PyNone PyNone PyNone no_filters [p1; p2; pz]) = Ok m /\
    forall key, m !! key = last_with_id key (features_of [p1; p2]).
Proof.
  apply (query_mapping_lookup
           canned PyNone PyNone PyNone PyNone no_filters base_url
           [p1; p2; pz] 2 [p1; p2] pz []).
  - vm_compute. reflexivity.
  - lia.
  - vm_compute. reflexivity.
  - vm_compute. reflexivity.
  - vm_compute. reflexivity.
  - vm_compute. reflexivity.
Defined.

Lemma query_mapping_keys_witness :
  exists m,
    returned (query canned PyNone PyNone PyNone PyNone no_filters [p1; pz]) = Ok m /\
    (forall key f, m !! key = Some f -> feature_id f = key /\ f ∈ features_of [p1]) /\
    (forall f, f ∈ features_of [p1] -> is_Some (m !! feature_id f)) /\
    (size m <= length (features_of [p1]))%nat /\
    (NoDup (feature_id <$> features_of [p1]) -> size m = length (features_of [p1])).
Proof.
  apply (query_mapping_keys
           canned PyNone PyNone PyNone PyNone no_filters base_url
           [p1; pz] 1 [p1] pz []).
  - vm_compute. reflexivity.
  - lia.
  - vm_compute. reflexivity.
  - vm_compute. reflexivity.
  - vm_compute. reflexivity.
  - vm_compute. reflexivity.
Defined.

Lemma query_refuses_unencodable_filter_witness :
  exists err,
    query canned PyNone PyNone PyNone PyNone filters_bad [p1; pz] =
    mk_outcome (Raise err) [p1; pz] [].
Proof.
  apply (query_refuses_unencodable_filter
           canned PyNone PyNone PyNone PyNone filters_bad [p1; pz] "n" (PyInt 3)).
  - vm_compute. reflexivity.
  - reflexivity.
Defined.

Lemma build_url_refuses_geometry_witness :
  build_url (PyStr "Sentinel1") PyNone PyNone (PyInt 5) filters_bad =
  Raise (ValueError "Geometry must be in well-known text format").
Proof.
  apply (build_url_refuses_geometry
           (PyStr "Sentinel1") PyNone PyNone (PyInt 5) filters_bad
           "http://finder.creodias.eu/resto/api/collections/Sentinel1/search.json?"
           [] []).
  - vm_compute. reflexivity.
  - reflexivity.
  - reflexivity.
  - reflexivity.
  - intros g. discriminate.
Defined.

Lemma build_url_dates_witness :
  exists end_date,
    _add_time midnight = Ok end_date /\
    (seconds_of_day midnight = 0 -> end_date = end_of_that_day) /\
    (seconds_of_day midnight <> 0 -> end_date = midnight) /\
    build_url PyNone (PyDatetime midnight) (PyDatetime midnight) PyNone filters_ba =
    (url ← add_filters
           (API_URL +:+ "/search.json?" +:+ "&startDate=" +:+ isoformat midnight
            +:+ "&completionDate=" +:+ isoformat end_date)
           (sorted_items filters_ba);
     Ok (url +:+ "&maxRecords=1000")).
Proof.
  apply (build_url_dates midnight filters_ba).
  unfold valid_datetime, MAXORDINAL. simpl. lia.
Defined.

Lemma add_time_result_witness :
  exists d',
    _add_time midnight = Ok d' /\
    valid_datetime d' /\
    ordinal d' = ordinal midnight /\
    microsecond d' = microsecond midnight /\
    tzinfo d' = tzinfo midnight /\
    seconds_of_day midnight <= seconds_of_day d' /\
    seconds_of_day d' <> 0.
Proof.
  apply (add_time_result midnight).
  unfold valid_datetime, MAXORDINAL. simpl. lia.
Defined.

Lemma add_time_idempotent_witness :
  _add_time end_of_that_day = Ok end_of_that_day.
Proof.
  apply (add_time_idempotent midnight end_of_that_day).
  - unfold valid_datetime, MAXORDINAL. simpl. lia.
  - reflexivity.
Defined.

Lemma convert_wkt_without_space_witness :
  _convert_wkt (PyStr "POINT(1,2)") = Ok "POINT(1,2)".
Proof.
  apply (convert_wkt_without_space "POINT(1,2)").
  unfold occurs. simpl. intros Hin.
  repeat (destruct Hin as [Habs|Hin]; [discriminate Habs|]). exact Hin.
Defined.

Lemma parse_argvalue_without_whitespace_witness :
  _parse_argvalue (PyStr "L1GT") = Ok "L1GT".
Proof.
  apply (parse_argvalue_without_whitespace "L1GT"). reflexivity.
Defined.

Lemma parse_argvalue_after_eighth_whitespace_witness :
  _parse_argvalue (PyStr " 1 2 3 4 5 6 7 8 9 10 ") =
  Ok ("1\ 2\ 3\ 4\ 5\ 6\ 7\ 8\ " +:+ "9 10").
Proof.
  apply (parse_argvalue_after_eighth_whitespace
           " 1 2 3 4 5 6 7 8 9 10 " "1 2 3 4 5 6 7 8 " "9 10").
  - vm_compute. reflexivity.
  - vm_compute. reflexivity.
  - vm_compute. reflexivity.
Defined.

Lemma parse_argvalue_wrong_length_witness :
  _parse_argvalue (PyList [PyInt 1; PyInt 2; PyInt 3]) =
  Raise (ValueError "Invalid number of elements in list. Expected 2, received 3").
Proof.
  apply (parse_argvalue_wrong_length [PyInt 1; PyInt 2; PyInt 3]).
  simpl. lia.
Defined.

Lemma parse_date_accepts_date_text_witness :
  _parse_date (PyStr "14-22-32") = dateutil_parse "14-22-32".
Proof.
  apply (parse_date_accepts_date_text "1" "2" "3"); reflexivity.
Defined.

Lemma parse_date_rejects_every_iso_string_witness :
  _parse_date (PyStr "2020-01-01T10:20:30.5+02:00") = Raise date_error.
Proof.
  apply (parse_date_rejects_every_iso_string "2020-01-01T10:20:30.5+02:00").
  vm_compute. reflexivity.
Defined.

Lemma convert_wkt_twice_witness :
  _convert_wkt (PyStr "POLYGON((1+2,3+4))") = Ok "POLYGON((1+2,3+4))".
Proof.
  apply (convert_wkt_twice "POLYGON ((1 2, 3 4))" "POLYGON((1+2,3+4))").
  reflexivity.
Defined.

Lemma query_refuses_iso_start_date_witness :
  query canned (PyStr "Sentinel1") (PyStr "2020-01-01") PyNone PyNone no_filters [p1; pz] =
  mk_outcome (Raise date_error) [p1; pz] [].
Proof.
  apply (query_refuses_iso_start_date
           canned (PyStr "Sentinel1") "2020-01-01" PyNone PyNone no_filters [p1; pz]
           "http://finder.creodias.eu/resto/api/collections/Sentinel1/search.json?").
  - vm_compute. reflexivity.
  - vm_compute. reflexivity.
Defined.

End MoreRuns.
